(** * vscode-test-web: the browser test session of [src/index.ts]

    A shallow embedding of [runTests], [open], [openBrowser] and of the
    handlers they register, over an explicit model of the collaborators
    (the server handle, the Playwright browser, context and pages, and the
    promise returned by [runTests]).

    Asynchronous functions are sequences of awaited calls; an awaited call
    that rejects throws at the [await].  Every call made to a collaborator
    is appended to a log, so that ordering properties can be read off it. *)

From stdpp Require Import base numbers strings list gmap pretty.

Local Open Scope string_scope.
Local Open Scope Z_scope.
Local Open Scope list_scope.

(** ** Data of [index.ts] *)

Inductive BrowserType := chromium | firefox | webkit.

#[global] Instance BrowserType_eq_dec : EqDecision BrowserType.
Proof. solve_decision. Defined.

Inductive VSCodeQuality := insiders | stable.

(** A JavaScript number as [openBrowser] reads [waitForDebugger]: through
    its truthiness and through its text in a template literal.  An integer
    up to 2^53 in absolute value is [Integer], and is written with all its
    digits.  Any other number ([9222.5], [1e21], [Infinity]) is [Inexact],
    with the text JavaScript gives it (['9222.5'], ['1e+21'],
    ['Infinity']). *)
Inductive Number :=
| NaN
| Integer (n : Z)
| Inexact (text : string).

(** [Number.isSafeInteger] *)
Definition is_safe_integer (n : Z) : bool :=
  (- (2 ^ 53 - 1) <=? n) && (n <=? 2 ^ 53 - 1).

(** Truthiness of a number: neither [NaN] nor zero. *)
Definition number_truthy (v : Number) : bool :=
  match v with
  | NaN => false
  | Integer n => negb (n =? 0)
  | Inexact _ => true
  end.

(** The template literal [`${v}`] of a number. *)
Definition number_toString (v : Number) : string :=
  match v with
  | NaN => "NaN"
  | Integer n => pretty n
  | Inexact text => text
  end.

(** [interface Options]; an optional member is an [option]. *)
Record Options := mkOptions {
  browserType : BrowserType;
  extensionDevelopmentPath : option string;
  extensionTestsPath : option string;
  quality : option VSCodeQuality;
  version : option string;
  devTools : option bool;
  headless : option bool;
  hideServerLog : option bool;
  waitForDebugger : option Number;
  folderPath : option string;
  folderUri : option string;
  permissions : option (list string);
  extensionPaths : option (list string);
  vsCodeDevPath : option string;
  verbose : option bool;
  port : option Z;
  host : option string
}.

(** [Static | Sources] of [./server/main], as built by [getBuild]. *)
Inductive Build :=
| Static (location : string)
| Sources (location : string).

(** [IConfig] of [./server/main], with the members the object literals of
    [runTests] and [open] give it. *)
Record IConfig := mkConfig {
  cfg_extensionDevelopmentPath : option string;
  cfg_extensionTestsPath : option string;
  cfg_build : Build;
  cfg_folderUri : option string;
  cfg_folderMountPath : option string;
  cfg_hideServerLog : bool;
  cfg_extensionPaths : option (list string)
}.

(** A thrown value or a rejection reason: [new Error(message)]. *)
Inductive JsError := Error (message : string).

(** The template literal [`${error}`] of an [Error] object, that is
    [Error.prototype.toString]: the name alone when the message is empty. *)
Definition error_toString (e : JsError) : string :=
  match e with
  | Error m => if String.eqb m "" then "Error" else "Error: " +:+ m
  end.

(** The first parameter of [codeAutomationLog]. *)
Inductive ConsoleType := ConsoleWarn | ConsoleError | ConsoleInfo.

(** ** The collaborators *)

(** The operations of the collaborators that return a promise; each may
    reject. *)
Inductive Op :=
| OpDownload | OpRunServer | OpLaunch | OpNewContext | OpGrantPermissions
| OpNewPage | OpWaitForFunction | OpSetViewportSize | OpGoto
| OpExposeFunction (name : string)
| OpBrowserClose.

(** The calls the program makes to its collaborators, as logged. *)
Inductive Call :=
| CDownload (quality : string)
| CRunServer (host : string) (port : Z) (config : IConfig)
| CLaunch (engine : BrowserType) (headless : bool) (args : list string)
          (devtools : option bool)
| CNewContext
| CGrantPermissions (permissions : list string)
| COnPage
| CNewPage
| CWaitForFunction
| COnConsole
| CSetViewportSize (width height : Z)
| CGoto (url : string)
| COnceClose
| CExposeFunction (name : string)
| CBrowserClose
| CServerClose
| CConsole (type : ConsoleType) (args : list string).

(** A server or browser handle is not yet acquired, live, or closed. *)
Inductive Handle := Absent | Live | Closed.

(** The promise returned by [runTests]. *)
Inductive PromiseState :=
| Pending
| Fulfilled
| Rejected (reason : JsError).

Record World := mkWorld {
  calls : list Call;             (* calls made so far, oldest first *)
  server : Handle;
  browser : Handle;
  pages : list nat;              (* context.pages() *)
  next_page : nat;               (* identity of the next page created *)
  page_listener : bool;          (* context.on('page', ...) is installed *)
  close_listeners : gset nat;    (* pages with an armed once('close') *)
  once_close : bool;             (* context.once('close', ...) is armed *)
  openPages : Z;                 (* let openPages = 0 *)
  exposed : list string;         (* names given to context.exposeFunction *)
  promise : PromiseState
}.

Definition initial : World :=
  {| calls := []; server := Absent; browser := Absent; pages := [];
     next_page := 0%nat; page_listener := false; close_listeners := ∅;
     once_close := false; openPages := 0; exposed := [];
     promise := Pending |}.

(** What the process runs on and which awaited operations reject. *)
Record Env := mkEnv {
  platform : string;                 (* process.platform *)
  rejects : Op -> option JsError;
  download_location : string         (* where the downloaded build lands *)
}.

(** ** Field updates *)

Definition log_call (c : Call) (w : World) : World :=
  {| calls := calls w ++ [c]; server := server w; browser := browser w;
     pages := pages w; next_page := next_page w;
     page_listener := page_listener w;
     close_listeners := close_listeners w; once_close := once_close w;
     openPages := openPages w; exposed := exposed w;
     promise := promise w |}.

Definition set_server (h : Handle) (w : World) : World :=
  {| calls := calls w; server := h; browser := browser w;
     pages := pages w; next_page := next_page w;
     page_listener := page_listener w;
     close_listeners := close_listeners w; once_close := once_close w;
     openPages := openPages w; exposed := exposed w;
     promise := promise w |}.

Definition set_browser (h : Handle) (w : World) : World :=
  {| calls := calls w; server := server w; browser := h;
     pages := pages w; next_page := next_page w;
     page_listener := page_listener w;
     close_listeners := close_listeners w; once_close := once_close w;
     openPages := openPages w; exposed := exposed w;
     promise := promise w |}.

Definition set_pages (ps : list nat) (n : nat) (w : World) : World :=
  {| calls := calls w; server := server w; browser := browser w;
     pages := ps; next_page := n;
     page_listener := page_listener w;
     close_listeners := close_listeners w; once_close := once_close w;
     openPages := openPages w; exposed := exposed w;
     promise := promise w |}.

Definition set_page_listener (b : bool) (w : World) : World :=
  {| calls := calls w; server := server w; browser := browser w;
     pages := pages w; next_page := next_page w;
     page_listener := b;
     close_listeners := close_listeners w; once_close := once_close w;
     openPages := openPages w; exposed := exposed w;
     promise := promise w |}.

Definition set_close_listeners (s : gset nat) (w : World) : World :=
  {| calls := calls w; server := server w; browser := browser w;
     pages := pages w; next_page := next_page w;
     page_listener := page_listener w;
     close_listeners := s; once_close := once_close w;
     openPages := openPages w; exposed := exposed w;
     promise := promise w |}.

Definition set_once_close (b : bool) (w : World) : World :=
  {| calls := calls w; server := server w; browser := browser w;
     pages := pages w; next_page := next_page w;
     page_listener := page_listener w;
     close_listeners := close_listeners w; once_close := b;
     openPages := openPages w; exposed := exposed w;
     promise := promise w |}.

Definition set_openPages (n : Z) (w : World) : World :=
  {| calls := calls w; server := server w; browser := browser w;
     pages := pages w; next_page := next_page w;
     page_listener := page_listener w;
     close_listeners := close_listeners w; once_close := once_close w;
     openPages := n; exposed := exposed w;
     promise := promise w |}.

Definition add_exposed (name : string) (w : World) : World :=
  {| calls := calls w; server := server w; browser := browser w;
     pages := pages w; next_page := next_page w;
     page_listener := page_listener w;
     close_listeners := close_listeners w; once_close := once_close w;
     openPages := openPages w; exposed := exposed w ++ [name];
     promise := promise w |}.

(** Settling a promise: the resolving functions of a settled promise do
    nothing (ECMAScript, promise resolving functions). *)
Definition settle (p : PromiseState) (w : World) : World :=
  match promise w with
  | Pending =>
      {| calls := calls w; server := server w; browser := browser w;
         pages := pages w; next_page := next_page w;
         page_listener := page_listener w;
         close_listeners := close_listeners w; once_close := once_close w;
         openPages := openPages w; exposed := exposed w;
         promise := p |}
  | _ => w
  end.

(** ** The monad of asynchronous code

    A computation transforms the world and completes normally or throws. *)

Inductive Completion (A : Type) :=
| Normal (a : A)
| Throw (e : JsError).
Arguments Normal {A} a.
Arguments Throw {A} e.

Definition Js (A : Type) : Type := World -> Completion A * World.

Definition ret {A} (a : A) : Js A := fun w => (Normal a, w).

Definition bind {A B} (m : Js A) (k : A -> Js B) : Js B :=
  fun w =>
    match m w with
    | (Normal a, w') => k a w'
    | (Throw e, w') => (Throw e, w')
    end.

(** [try { body } catch (error) { handler }] *)
Definition try_catch {A} (body : Js A) (handler : JsError -> Js A) : Js A :=
  fun w =>
    match body w with
    | (Normal a, w') => (Normal a, w')
    | (Throw e, w') => handler e w'
    end.

(** A call whose promise is neither awaited nor returned: a rejection is
    not thrown at the call site. *)
Definition not_awaited (m : Js unit) : Js unit :=
  fun w => (Normal tt, snd (m w)).

Definition effect (f : World -> World) : Js unit :=
  fun w => (Normal tt, f w).

Notation "'let*' x ':=' m 'in' k" := (bind m (fun x => k))
  (at level 10, x name, m at level 100, k at level 200, only parsing).
Notation "m '>>' k" := (bind m (fun _ => k))
  (at level 100, k at level 200, right associativity, only parsing).

(** ** Events of a session

    What the browser side does once handlers are registered.  The model
    puts no constraint on their order. *)
Inductive Event :=
| PageCreated                                      (* context emits 'page' *)
| PageClosed (page : nat)                          (* a page emits 'close' *)
| ContextClosed                                    (* context emits 'close' *)
| CallLog (type : ConsoleType) (args : list string)
| CallExit (code : Z).

(** ** JavaScript operators on optional strings *)

(** Truthiness of a [string | undefined]. *)
Definition truthy (s : option string) : bool :=
  match s with
  | Some s => negb (String.eqb s "")
  | None => false
  end.

(** [a || b] *)
Definition js_or (a b : option string) : option string :=
  if truthy a then a else b.

Definition quality_string (q : VSCodeQuality) : string :=
  match q with insiders => "insiders" | stable => "stable" end.

Definition width : Z := 1200.
Definition height : Z := 800.

Section Session.

Variable env : Env.

(** An awaited call to a collaborator: it is made, then it rejects or not. *)
Definition await (c : Call) (op : Op) : Js unit :=
  fun w =>
    match rejects env op with
    | Some e => (Throw e, log_call c w)
    | None => (Normal tt, log_call c w)
    end.

(** *** The server and the build ([./server/main], [./server/download]) *)

(** Modelled from the spec: [downloadAndUnzipVSCode] is defined in
    [./server/download], outside [index.ts]; the build contract is
    [resolveBuild(qualityOrSourcesPath) -> BuildDescriptor], here a packaged
    build at some location, or a rejection. *)
Definition downloadAndUnzipVSCode (quality : string) : Js Build :=
  await (CDownload quality) OpDownload >>
  ret (Static (download_location env)).

(** Modelled from the spec: [runServer] is defined in [./server/main],
    outside [index.ts]; the server contract is
    [startServer(host, port, config) -> handle], failing with a fatal error
    when the port cannot be bound. *)
Definition runServer (host : string) (port : Z) (config : IConfig) : Js unit :=
  await (CRunServer host port config) OpRunServer >>
  effect (set_server Live).

(** Modelled from the spec: [handle.close()] of the server handle is
    idempotent and does not throw. *)
Definition server_close : World -> World :=
  fun w =>
    let w' := log_call CServerClose w in
    match server w' with
    | Live => set_server Closed w'
    | _ => w'
    end.

(** *** Playwright *)

(** [browser.close()] of Playwright, reached as [context.browser()?.close()]
    (the context comes from [browser.newContext()], so its browser is not
    null): it rejects, or leaves the browser closed; closing a browser that
    is not live changes nothing. *)
Definition browser_close : Js unit :=
  await CBrowserClose OpBrowserClose >>
  effect (fun w =>
            match browser w with
            | Live => set_browser Closed w
            | _ => w
            end).

(** [browser.newContext()]: a context of its own, with no page, no
    listener and no exposed function yet. *)
Definition fresh_context : World -> World :=
  fun w =>
    {| calls := calls w; server := server w; browser := browser w;
       pages := []; next_page := next_page w;
       page_listener := false; close_listeners := ∅; once_close := false;
       openPages := openPages w; exposed := [];
       promise := promise w |}.

Definition newContext : Js unit :=
  await CNewContext OpNewContext >> effect fresh_context.

(** *** [openBrowser], lines 220-267 *)

(** The listener of [page.once('close', ...)], lines 242-247. *)
Definition on_page_close : World -> World :=
  fun w =>
    let w1 := set_openPages (openPages w - 1) w in
    if openPages w1 =? 0
    then snd (not_awaited browser_close w1)
    else w1.

(** The listener of [context.on('page', ...)], lines 240-248. *)
Definition on_page (page : nat) : World -> World :=
  fun w =>
    let w1 := set_openPages (openPages w + 1) w in
    set_close_listeners ({[page]} ∪ close_listeners w1) w1.

(** A page comes into being in the context, which emits 'page'. *)
Definition page_created : Js nat :=
  fun w =>
    let page := next_page w in
    let w1 := set_pages (pages w ++ [page]) (S page) w in
    (Normal page, if page_listener w1 then on_page page w1 else w1).

(** [context.newPage()] *)
Definition newPage : Js nat :=
  await CNewPage OpNewPage >> page_created.

(** The [args] of the launch, lines 221-228. *)
Definition launch_args (options : Options) : list string :=
  let args : list string := [] in
  let args :=
    if String.eqb (platform env) "linux"
       && bool_decide (browserType options = chromium)
    then args ++ ["--no-sandbox"] else args in
  match waitForDebugger options with
  | Some port =>
      if number_truthy port
      then args ++ ["--remote-debugging-port=" +:+ number_toString port]
      else args
  | None => args
  end.

(** [openBrowser]: launch, new context, permissions, the page counter and
    its listener, the first page, then viewport and navigation.  The promise
    of [context.grantPermissions] is not awaited (line 235): when it
    rejects, nothing is thrown in [openBrowser]. *)
Definition openBrowser (endpoint : string) (options : Options) : Js unit :=
  let args := launch_args options in
  let headless :=
    match headless options with
    | Some h => h
    | None => bool_decide (extensionTestsPath options ≠ None)
    end in
  await (CLaunch (browserType options) headless args (devTools options))
        OpLaunch >>
  effect (set_browser Live) >>
  newContext >>
  (match permissions options with
   | Some ps =>
       not_awaited (await (CGrantPermissions ps) OpGrantPermissions)
   | None => ret tt
   end) >>
  effect (set_openPages 0) >>
  effect (log_call COnPage) >>
  effect (set_page_listener true) >>
  let* page :=
    (fun w => match pages w with
              | p :: _ => ret p w
              | [] => newPage w
              end) in
  (match waitForDebugger options with
   | Some port =>
       if number_truthy port
       then await CWaitForFunction OpWaitForFunction
       else ret tt
   | None => ret tt
   end) >>
  (match verbose options with
   | Some true => effect (log_call COnConsole)
   | _ => ret tt
   end) >>
  await (CSetViewportSize width height) OpSetViewportSize >>
  await (CGoto endpoint) OpGoto.

(** *** [getBuild], lines 178-187 *)

Definition getBuild (options : Options) : Js Build :=
  if truthy (vsCodeDevPath options)
  then ret (Sources (default "" (vsCodeDevPath options)))
  else
    let quality :=
      js_or (quality_string <$> quality options) (version options) in
    downloadAndUnzipVSCode
      (if bool_decide (quality = Some "stable") then "stable" else "insider").

(** [context.once('close', () => server.close())] *)
Definition once_context_close : Js unit :=
  effect (log_call COnceClose) >> effect (set_once_close true).

(** [await context.exposeFunction(name, ...)] *)
Definition exposeFunction (name : string) : Js unit :=
  await (CExposeFunction name) (OpExposeFunction name) >>
  effect (add_exposed name).

(** *** [runTests], lines 137-176 *)

(** The handler given to [exposeFunction('codeAutomationLog', ...)]. *)
Definition codeAutomationLog (type : ConsoleType) (args : list string)
  : Js unit :=
  effect (log_call (CConsole type args)).

(** The handler given to [exposeFunction('codeAutomationExit', ...)],
    lines 162-174; [s] and [e] settle the promise of [runTests]. *)
Definition codeAutomationExit (code : Z) : Js unit :=
  try_catch browser_close
    (fun error =>
       effect (log_call
                 (CConsole ConsoleError
                    ["Error when closing browser: "
                     +:+ error_toString error]))) >>
  effect server_close >>
  if code =? 0
  then effect (settle Fulfilled)
  else effect (settle (Rejected (Error "Test failed"))).

(** The configuration literal and the server start, lines 138-151. *)
Definition runTests_start (options : Options) : Js (string * Z) :=
  let* build := getBuild options in
  let config :=
    {| cfg_extensionDevelopmentPath := extensionDevelopmentPath options;
       cfg_extensionTestsPath := extensionTestsPath options;
       cfg_build := build;
       cfg_folderUri := folderUri options;
       cfg_folderMountPath := folderPath options;
       cfg_hideServerLog := default true (hideServerLog options);
       cfg_extensionPaths := extensionPaths options |} in
  let host := default "localhost" (host options) in
  let port := default 3000 (port options) in
  runServer host port config >>
  ret (host, port).

(** The [async (s, e) => ...] given to [new Promise], lines 153-175. *)
Definition runTests_executor (options : Options) (host : string) (port : Z)
  : Js unit :=
  let endpoint := "http://" +:+ host +:+ ":" +:+ pretty port in
  openBrowser endpoint options >>
  once_context_close >>
  exposeFunction "codeAutomationLog" >>
  exposeFunction "codeAutomationExit".

(** [runTests]: a throw before [new Promise] rejects the promise of the
    async function; a throw inside the async executor rejects only the
    executor's own promise, which nobody holds. *)
Definition runTests (options : Options) : World -> World :=
  fun w =>
    match runTests_start options w with
    | (Throw e, w') => settle (Rejected e) w'
    | (Normal (host, port), w') =>
        snd (runTests_executor options host port w')
    end.

(** *** [open], lines 189-215 *)

(** The [dispose] of the object [open] returns, lines 209-212. *)
Definition dispose : Js unit :=
  effect server_close >>
  not_awaited browser_close.

(** [open]: the same start-up as [runTests], without the bridge; what it
    returns is the object holding [dispose]. *)
Definition open (options : Options) : Js unit :=
  let* build := getBuild options in
  let config :=
    {| cfg_extensionDevelopmentPath := extensionDevelopmentPath options;
       cfg_extensionTestsPath := extensionTestsPath options;
       cfg_build := build;
       cfg_folderUri := folderUri options;
       cfg_folderMountPath := folderPath options;
       cfg_hideServerLog := default true (hideServerLog options);
       cfg_extensionPaths := extensionPaths options |} in
  let host := default "localhost" (host options) in
  let port := default 3000 (port options) in
  runServer host port config >>
  let endpoint := "http://" +:+ host +:+ ":" +:+ pretty port in
  openBrowser endpoint options >>
  once_context_close.

(** *** Delivery of events to the registered handlers *)

Definition deliver (ev : Event) : World -> World :=
  fun w =>
    match ev with
    | PageCreated => snd (page_created w)
    | PageClosed page =>
        let w1 :=
          set_pages (filter (λ q, q ≠ page) (pages w)) (next_page w) w in
        if bool_decide (page ∈ close_listeners w1)
        then on_page_close
               (set_close_listeners (close_listeners w1 ∖ {[page]}) w1)
        else w1
    | ContextClosed =>
        if once_close w
        then server_close (set_once_close false w)
        else w
    | CallLog type args =>
        if bool_decide ("codeAutomationLog" ∈ exposed w)
        then snd (codeAutomationLog type args w)
        else w
    | CallExit code =>
        if bool_decide ("codeAutomationExit" ∈ exposed w)
        then snd (codeAutomationExit code w)
        else w
    end.

Definition run (evs : list Event) (w : World) : World :=
  foldl (fun w ev => deliver ev w) w evs.

End Session.

(** ** Concrete sessions, used to run the model *)

(** Nothing rejects, on Linux. *)
Definition env_ok : Env :=
  {| platform := "linux"; rejects := fun _ => None;
     download_location := "/tmp/vscode-web" |}.

(** The port is in use: the server does not start. *)
Definition env_port_in_use : Env :=
  {| platform := "linux";
     rejects := fun op =>
       match op with
       | OpRunServer => Some (Error "listen EADDRINUSE")
       | _ => None
       end;
     download_location := "/tmp/vscode-web" |}.

(** The browser cannot be launched. *)
Definition env_no_browser : Env :=
  {| platform := "linux";
     rejects := fun op =>
       match op with
       | OpLaunch => Some (Error "Executable doesn't exist")
       | _ => None
       end;
     download_location := "/tmp/vscode-web" |}.

(** Closing the browser rejects. *)
Definition env_close_fails : Env :=
  {| platform := "darwin";
     rejects := fun op =>
       match op with
       | OpBrowserClose => Some (Error "Target closed")
       | _ => None
       end;
     download_location := "/tmp/vscode-web" |}.

(** [{ browserType: 'chromium', extensionTestsPath: '/ext/test/index.js' }] *)
Definition options_test : Options :=
  {| browserType := chromium;
     extensionDevelopmentPath := None;
     extensionTestsPath := Some "/ext/test/index.js";
     quality := None; version := None; devTools := None;
     headless := None; hideServerLog := None; waitForDebugger := None;
     folderPath := None; folderUri := None; permissions := None;
     extensionPaths := None; vsCodeDevPath := None; verbose := None;
     port := None; host := None |}.

(** The promise of [context.grantPermissions] rejects. *)
Definition env_grant_fails : Env :=
  {| platform := "linux";
     rejects := fun op =>
       match op with
       | OpGrantPermissions => Some (Error "Unknown permission: clipboard")
       | _ => None
       end;
     download_location := "/tmp/vscode-web" |}.

(** [{ browserType: 'chromium', permissions: ['clipboard'] }] *)
Definition options_clipboard : Options :=
  {| browserType := chromium;
     extensionDevelopmentPath := None;
     extensionTestsPath := None;
     quality := None; version := None; devTools := None;
     headless := None; hideServerLog := None; waitForDebugger := None;
     folderPath := None; folderUri := None;
     permissions := Some ["clipboard"];
     extensionPaths := None; vsCodeDevPath := None; verbose := None;
     port := None; host := None |}.

(** [{ browserType: 'firefox' }] *)
Definition options_interactive : Options :=
  {| browserType := firefox;
     extensionDevelopmentPath := None;
     extensionTestsPath := None;
     quality := None; version := None; devTools := None;
     headless := None; hideServerLog := None; waitForDebugger := None;
     folderPath := None; folderUri := None; permissions := None;
     extensionPaths := None; vsCodeDevPath := None; verbose := None;
     port := None; host := None |}.

(** ** Reading the log *)

Definition is_launch (c : Call) : bool :=
  match c with CLaunch _ _ _ _ => true | _ => false end.

Definition is_goto (c : Call) : bool :=
  match c with CGoto _ => true | _ => false end.

Definition is_expose (c : Call) : bool :=
  match c with CExposeFunction _ => true | _ => false end.

Definition is_browser_close (c : Call) : bool :=
  match c with CBrowserClose => true | _ => false end.

Definition is_close (c : Call) : bool :=
  match c with CBrowserClose | CServerClose => true | _ => false end.

(** The awaited operation behind a call, if it is an awaited one. *)
Definition call_op (c : Call) : option Op :=
  match c with
  | CDownload _ => Some OpDownload
  | CRunServer _ _ _ => Some OpRunServer
  | CLaunch _ _ _ _ => Some OpLaunch
  | CNewContext => Some OpNewContext
  | CNewPage => Some OpNewPage
  | CWaitForFunction => Some OpWaitForFunction
  | CSetViewportSize _ _ => Some OpSetViewportSize
  | CGoto _ => Some OpGoto
  | CExposeFunction name => Some (OpExposeFunction name)
  | CBrowserClose => Some OpBrowserClose
  | _ => None
  end.

(** The configurations the server was started with. *)
Definition server_configs (l : list Call) : list IConfig :=
  omap (fun c => match c with CRunServer _ _ cfg => Some cfg | _ => None end) l.

Fixpoint count_calls (p : Call -> bool) (l : list Call) : nat :=
  match l with
  | [] => 0%nat
  | c :: l' => ((if p c then 1 else 0) + count_calls p l')%nat
  end.

(** How many times [browser.close()] has been called. *)
Definition closings (w : World) : nat :=
  count_calls is_browser_close (calls w).

(** The world without its log: what the handles and handlers are. *)
Definition forget_calls (w : World) : World :=
  {| calls := []; server := server w; browser := browser w;
     pages := pages w; next_page := next_page w;
     page_listener := page_listener w;
     close_listeners := close_listeners w; once_close := once_close w;
     openPages := openPages w; exposed := exposed w;
     promise := promise w |}.

(** [`http://${host}:${port}`] with the defaults of lines 149-150. *)
Definition endpoint_of (options : Options) : string :=
  "http://" +:+ default "localhost" (host options) +:+ ":"
  +:+ pretty (default 3000 (port options)).

(** Events of the page life cycle. *)
Definition is_page_event (ev : Event) : bool :=
  match ev with PageCreated | PageClosed _ => true | _ => false end.

(** The counter counts the pages whose close listener is armed, and page
    identities are handed out in increasing order. *)
Definition tracking (w : World) : Prop :=
  page_listener w = true
  ∧ openPages w = Z.of_nat (size (close_listeners w))
  ∧ ∀ p, p ∈ close_listeners w → (p < next_page w)%nat.

(** The pages counted are the pages of the context: a page has its close
    listener armed exactly when it is one of [context.pages()]. *)
Definition counting (w : World) : Prop :=
  tracking w
  ∧ NoDup (pages w)
  ∧ close_listeners w = list_to_set (pages w).

(** ** A logic of call sequences

    [protocol P m]: whatever [m] does, it only adds calls satisfying [P] to
    the log; when it completes, every awaited call was let through; when it
    throws, the error is the rejection of the last call made. *)

Section ProtocolSpec.

Variable env : Env.

Definition accepted (c : Call) : Prop :=
  ∀ op, call_op c = Some op → rejects env op = None.

Definition protocol (P : Call -> Prop) {A} (m : Js A) : Prop :=
  ∀ w,
    match m w with
    | (Normal _, w') =>
        ∃ l, calls w' = calls w ++ l ∧ Forall P l ∧ Forall accepted l
    | (Throw e, w') =>
        ∃ l c op, calls w' = calls w ++ l ++ [c]
                  ∧ Forall P (l ++ [c]) ∧ Forall accepted l
                  ∧ call_op c = Some op ∧ rejects env op = Some e
    end.

End ProtocolSpec.

(** [guarantees R m]: [m] takes a world to one related to it by [R]. *)
Definition guarantees (R : relation World) {A} (m : Js A) : Prop :=
  ∀ w, R w (snd (m w)).

(** ** The calls of each part of the start-up *)

(** The calls [openBrowser] makes. *)
Definition browser_call (env : Env) (endpoint : string) (options : Options)
    (c : Call) : Prop :=
  match c with
  | CLaunch engine _ args devtools =>
      engine = browserType options ∧ args = launch_args env options
      ∧ devtools = devTools options
  | CGoto url => url = endpoint
  | CNewContext | CGrantPermissions _ | COnPage | CNewPage
  | CWaitForFunction | COnConsole | CSetViewportSize _ _ => True
  | _ => False
  end.

(** The calls made up to the server start, lines 138-151 and 190-202. *)
Definition start_call (options : Options) (c : Call) : Prop :=
  match c with
  | CDownload _ => True
  | CRunServer h p cfg =>
      h = default "localhost" (host options)
      ∧ p = default 3000 (port options)
      ∧ cfg_hideServerLog cfg = default true (hideServerLog options)
  | _ => False
  end.

(** The calls of a whole start-up, bridge installation apart. *)
Definition startup_call (env : Env) (options : Options) (c : Call) : Prop :=
  start_call options c
  ∨ browser_call env (endpoint_of options) options c
  ∨ c = COnceClose.

(** [ends_with P c m]: when [m] completes, its last call is [c], and the
    calls before it satisfy [P]. *)
Definition ends_with (P : Call -> Prop) (c : Call) {A} (m : Js A) : Prop :=
  ∀ w a w', m w = (Normal a, w') →
    ∃ l, calls w' = calls w ++ l ++ [c] ∧ Forall P l.

(** The calls of a session of [runTests]. *)
Definition session_call (env : Env) (options : Options) (c : Call) : Prop :=
  startup_call env options c ∨ is_expose c = true.

(** What the start-up may do to the handles and the promise. *)
Definition acquires (w w' : World) : Prop :=
  (server w' = server w ∨ server w' = Live)
  ∧ (browser w' = browser w ∨ browser w' = Live)
  ∧ promise w' = promise w.

(** The calls of the executor given to [new Promise] in [runTests], lines
    153-175: those of [openBrowser], then the listener of the context and
    the installation of the bridge. *)
Definition executor_call (env : Env) (options : Options) (c : Call) : Prop :=
  browser_call env (endpoint_of options) options c
  ∨ c = COnceClose
  ∨ is_expose c = true.

(** The awaited steps of [runTests] before [new Promise]: the build and the
    server start, lines 141 and 151. *)
Definition is_start_op (op : Op) : bool :=
  match op with OpDownload | OpRunServer => true | _ => false end.

(** What a start-up that failed at [op] with [e] leaves behind: the
    rejected call is the last one made and [e] is its rejection, every
    awaited call before it was let through, no close was called and no
    handle is closed. *)
Definition failure_at (env : Env) (op : Op) (e : JsError) (w : World)
  : Prop :=
  (∃ pre c, calls w = pre ++ [c] ∧ call_op c = Some op
            ∧ rejects env op = Some e ∧ Forall (accepted env) pre)
  ∧ Forall (fun c => is_close c = false) (calls w)
  ∧ server w ≠ Closed ∧ browser w ≠ Closed.

(** Two environments that differ at most in whether the promise of
    [context.grantPermissions] rejects. *)
Definition same_but_grant (env env' : Env) : Prop :=
  platform env = platform env'
  ∧ download_location env = download_location env'
  ∧ ∀ op, op ≠ OpGrantPermissions → rejects env op = rejects env' op.

(** Two computations that do the same. *)
Definition same_run {A} (m m' : Js A) : Prop := ∀ w, m w = m' w.

(** [before P Q l]: in the log [l], every call satisfying [P] is made
    before every call satisfying [Q]. *)
Definition before (P Q : Call -> bool) (l : list Call) : Prop :=
  ∀ i j a b, l !! i = Some a → l !! j = Some b →
             P a = true → Q b = true → (i < j)%nat.

(** Exit calls. *)
Definition is_exit (ev : Event) : bool :=
  match ev with CallExit _ => true | _ => false end.

(** How many times the counter went from a nonzero value to zero while
    [evs] were delivered. *)
Fixpoint zero_hits (env : Env) (evs : list Event) (w : World) : nat :=
  match evs with
  | [] => 0%nat
  | ev :: evs' =>
      let w' := deliver env ev w in
      ((if negb (openPages w =? 0)%Z && (openPages w' =? 0)%Z then 1 else 0)
       + zero_hits env evs' w')%nat
  end.

(** ** The command line, lines 269-530

    The values [minimist] hands over are untyped; a validator returns, or
    ends the process with [process.exit] after writing to the console. *)

(** A JavaScript value as the validators inspect it ([typeof],
    [Array.isArray], truthiness, [===]). *)
#[warnings="-register-all"]
Inductive JsValue :=
| JUndefined
| JNull
| JBoolean (b : bool)
| JNumber (n : Z)
| JString (s : string)
| JArray (items : list JsValue).

Definition js_truthy (v : JsValue) : bool :=
  match v with
  | JUndefined | JNull => false
  | JBoolean b => b
  | JNumber n => negb (n =? 0)
  | JString s => negb (String.eqb s "")
  | JArray _ => true
  end.

(** [a || b] on values. *)
Definition js_or_value (a b : JsValue) : JsValue :=
  if js_truthy a then a else b.

(** [typeof v === 'string'] *)
Definition is_string (v : JsValue) : bool :=
  match v with JString _ => true | _ => false end.

(** [v === s] for a string literal [s]. *)
Definition is_the_string (s : string) (v : JsValue) : bool :=
  match v with JString s' => String.eqb s' s | _ => false end.

(** The strings of an array whose elements are all strings. *)
Definition strings_of (items : list JsValue) : list string :=
  omap (fun v => match v with JString s => Some s | _ => None end) items.

(** A run of command-line code: it returns a value or ends the process,
    having written [out] to the console. *)
Inductive Cli (A : Type) :=
| Return (a : A) (out : list string)
| Exit (code : option Z) (out : list string).
Arguments Return {A} a out.
Arguments Exit {A} code out.

#[global] Instance cli_ret : MRet Cli := fun A a => Return a [].

#[global] Instance cli_bind : MBind Cli :=
  fun A B k m =>
    match m with
    | Return a out =>
        match k a with
        | Return b out' => Return b (out ++ out')
        | Exit code out' => Exit code (out ++ out')
        end
    | Exit code out => Exit code out
    end.

(** [console.log(line)] *)
Definition console_log (line : string) : Cli unit := Return tt [line].

(** [process.exit(code)]; [process.exit()] is [process_exit None]. *)
Definition process_exit {A} (code : option Z) : Cli A := Exit code [].

(** What was written to the console. *)
Definition output {A} (m : Cli A) : list string :=
  match m with Return _ out | Exit _ out => out end.

(** The lines of [showHelp], lines 418-436. *)
Definition help_lines : list string :=
  [ "Usage:";
    "  --browserType 'chromium' | 'firefox' | 'webkit': The browser to launch. [Optional, defaults to 'chromium']";
    "  --extensionDevelopmentPath path: A path pointing to an extension under development to include. [Optional]";
    "  --extensionTestsPath path: A path to a test module to run. [Optional]";
    "  --quality 'insiders' | 'stable' [Optional, default 'insiders', ignored when running from sources]";
    "  --sourcesPath path: If provided, running from VS Code sources at the given location [Optional]";
    "  --open-devtools: If set, opens the dev tools  [Optional]";
    "  --headless: Whether to hide the browser. Defaults to true when an extensionTestsPath is provided, otherwise false. [Optional]";
    "  --permission: Permission granted in the opened browser: e.g. 'clipboard-read', 'clipboard-write':  [Optional, Multiple]";
    "  --folder-uri: workspace to open VS Code on. Ignored when folderPath is provided [Optional]";
    "  --extensionPath: A path pointing to a folder containing additional extensions to include [Optional, Multiple]";
    "  --host: The host name the server is opened on  [Optional, defaults to localhost]";
    "  --port: The port the server is opened on  [Optional, defaults to 3000]";
    "  --open-devtools: If set, opens the dev tools  [Optional]";
    "  --verbose: If set, prints out more information when running the server  [Optional]";
    "  --hideServerLog: Whether to hide the server log. Defaults to true when an extensionTestsPath is provided, otherwise false. [Optional]";
    "  folderPath. A local folder to open VS Code on. The folder content will be available as a virtual file system. [Optional]" ].
Definition showHelp : Cli unit := Return tt help_lines.

(** What the validators use of Node and of [./server/download]. *)
Record Node := mkNode {
  path_resolve : string -> string;        (* path.resolve *)
  fileExists : string -> bool;
  directoryExists : string -> bool;
  parseInt : string -> option Z;          (* Number.parseInt; None is NaN *)
  numberText : Z -> string                (* `${n}` beyond 2^53: the digits
                                             rounded, in exponent notation
                                             from 1e21 on *)
}.

(** [interface CommandLineOptions] as [minimist] fills it: an object read
    by key, a key that is not there reading [undefined]. *)
Definition option_value (options : gmap string JsValue) (name : string)
  : JsValue :=
  default JUndefined (options !! name).

(** ['chromium' | 'firefox' | 'webkit'] and ['insiders' | 'stable'] as the
    strings they are. *)
Definition browserType_string (b : BrowserType) : string :=
  match b with
  | chromium => "chromium" | firefox => "firefox" | webkit => "webkit"
  end.

Definition browserType_of_string (s : string) : option BrowserType :=
  if String.eqb s "chromium" then Some chromium
  else if String.eqb s "firefox" then Some firefox
  else if String.eqb s "webkit" then Some webkit
  else None.

Definition quality_of_string (s : string) : option VSCodeQuality :=
  if String.eqb s "insiders" then Some insiders
  else if String.eqb s "stable" then Some stable
  else None.

(** [validateStringOrUndefined], lines 269-277. *)
Definition validateStringOrUndefined
    (options : gmap string JsValue) (name : string) : Cli (option string) :=
  match option_value options name with
  | JUndefined => mret None
  | JString s => mret (Some s)
  | _ =>
      console_log ("'" +:+ name +:+ "' needs to be a string value.") ;;
      showHelp ;;
      process_exit (Some (-1))
  end.

(** [validateBooleanOrUndefined], lines 285-293. *)
Definition validateBooleanOrUndefined
    (options : gmap string JsValue) (name : string) : Cli (option bool) :=
  match option_value options name with
  | JUndefined => mret None
  | JBoolean b => mret (Some b)
  | _ =>
      console_log ("'" +:+ name +:+ "' needs to be a boolean value.") ;;
      showHelp ;;
      process_exit (Some (-1))
  end.

(** [valdiateBrowserType], lines 295-305. *)
Definition valdiateBrowserType (browserType : JsValue) : Cli BrowserType :=
  match browserType with
  | JUndefined => mret chromium
  | _ =>
      match browserType with
      | JString s =>
          match browserType_of_string s with
          | Some b => mret b
          | None =>
              console_log "Invalid browser type." ;;
              showHelp ;;
              process_exit (Some (-1))
          end
      | _ =>
          console_log "Invalid browser type." ;;
          showHelp ;;
          process_exit (Some (-1))
      end
  end.

(** [valdiatePermissions], lines 307-324. *)
Definition valdiatePermissions (permissions : JsValue)
  : Cli (option (list string)) :=
  match permissions with
  | JUndefined => mret None
  | JString p => mret (Some [p])
  | JArray items =>
      if forallb is_string items
      then mret (Some (strings_of items))
      else
        console_log "Invalid permission" ;;
        showHelp ;;
        process_exit (Some (-1))
  | _ =>
      console_log "Invalid permission" ;;
      showHelp ;;
      process_exit (Some (-1))
  end.

(** [validatePortNumber], lines 389-397. *)
Definition validatePortNumber (node : Node) (port : JsValue) : option Z :=
  match port with
  | JString s =>
      match parseInt node s with
      | Some number => if 0 <=? number then Some number else None
      | None => None
      end
  | _ => None
  end.

(** The number [n] that [Number.parseInt] gave, as a [Number]. *)
Definition number_of (node : Node) (n : Z) : Number :=
  if is_safe_integer n then Integer n else Inexact (numberText node n).

(** [validateQuality], lines 367-387. *)
Definition validateQuality
    (quality version : JsValue) (vsCodeDevPath : option string)
  : Cli (option VSCodeQuality) :=
  quality ←
    (if js_truthy version
     then console_log "--version has been replaced by --quality" ;;
          mret (js_or_value quality version)
     else mret quality);
  if truthy vsCodeDevPath && js_truthy quality
  then console_log "Sources folder is provided as input, quality is ignored." ;;
       mret None
  else
    match quality with
    | JUndefined => mret None
    | _ =>
        match (match quality with
               | JString s => quality_of_string s
               | _ => None
               end) with
        | Some q => mret (Some q)
        | None =>
            (if is_the_string "sources" version
             then console_log
                    "Instead of version=sources use 'sourcesPath' with the location of the VS Code repository."
             else console_log "Invalid quality.") ;;
            showHelp ;;
            process_exit (Some (-1))
        end
    end.

Section CommandLine.

Variable node : Node.

(** [validatePath], lines 351-365. *)
Definition validatePath (loc : string) (isFile : option bool) : Cli string :=
  let loc := path_resolve node loc in
  (if default false isFile
   then
     if negb (fileExists node loc)
     then console_log ("'" +:+ loc +:+ "' must be an existing file.") ;;
          process_exit (Some (-1))
     else mret tt
   else
     if negb (directoryExists node loc)
     then console_log ("'" +:+ loc +:+ "' must be an existing folder.") ;;
          process_exit (Some (-1))
     else mret tt) ;;
  mret loc.

(** [validatePathOrUndefined], lines 280-283: [loc && validatePath(loc)]. *)
Definition validatePathOrUndefined
    (options : gmap string JsValue) (name : string) (isFile : option bool)
  : Cli (option string) :=
  loc ← validateStringOrUndefined options name;
  if truthy loc
  then loc ← validatePath (default "" loc) isFile; mret (Some loc)
  else mret loc.

(** The loop of [valdiateExtensionPaths], lines 335-341: it stops at the
    first element that is not a string. *)
Fixpoint validate_each (extensionPaths : list JsValue) (res : list string)
  : Cli (list string) :=
  match extensionPaths with
  | JString extensionPath :: rest =>
      loc ← validatePath extensionPath None;
      validate_each rest (res ++ [loc])
  | _ => mret res
  end.

(** [valdiateExtensionPaths], lines 326-348. *)
Definition valdiateExtensionPaths (extensionPaths : JsValue)
  : Cli (option (list string)) :=
  match extensionPaths with
  | JUndefined => mret None
  | _ =>
      let extensionPaths :=
        match extensionPaths with
        | JArray _ => extensionPaths
        | _ => JArray [extensionPaths]
        end in
      match extensionPaths with
      | JArray items => res ← validate_each items []; mret (Some res)
      | _ =>
          console_log "Invalid extensionPath" ;;
          showHelp ;;
          process_exit (Some (-1))
      end
  end.

(** What [cliMain] ends with: the call of [runTests] or of [open], with
    the options of the object literal, lines 492-529. *)
Inductive Entry :=
| RunTests (options : Options)
| Open (options : Options).

Definition entry_options (entry : Entry) : Options :=
  match entry with RunTests options | Open options => options end.

(** [cliMain], lines 438-530, from the result of [minimist] on: [args] are
    the named arguments and [inputs] is [args._]; [manifest] is the line
    made of the name and the version of [package.json]. *)
Definition cliMain
    (manifest : string) (args : gmap string JsValue) (inputs : list string)
  : Cli Entry :=
  console_log manifest ;;
  (if js_truthy (option_value args "help")
   then showHelp ;; process_exit None
   else mret tt) ;;
  browserType ← valdiateBrowserType (option_value args "browserType");
  extensionTestsPath ←
    validatePathOrUndefined args "extensionTestsPath" (Some true);
  extensionDevelopmentPath ←
    validatePathOrUndefined args "extensionDevelopmentPath" None;
  extensionPaths ← valdiateExtensionPaths (option_value args "extensionPath");
  vsCodeDevPath ← validatePathOrUndefined args "sourcesPath" None;
  quality ←
    validateQuality (option_value args "quality")
      (option_value args "version") vsCodeDevPath;
  devTools ← validateBooleanOrUndefined args "open-devtools";
  headless ← validateBooleanOrUndefined args "headless";
  permissions ← valdiatePermissions (option_value args "permission");
  hideServerLog ← validateBooleanOrUndefined args "hideServerLog";
  verbose ← validateBooleanOrUndefined args "verbose";
  let port := validatePortNumber node (option_value args "port") in
  host ← validateStringOrUndefined args "host";
  let waitForDebugger :=
    number_of node
      <$> validatePortNumber node (option_value args "waitForDebugger") in
  folderUri ← validateStringOrUndefined args "folder-uri";
  '(folderPath, folderUri) ←
    match inputs with
    | input :: _ =>
        input ← validatePath input None;
        if negb (String.eqb input "")
        then
          if truthy folderUri
          then
            console_log
              "Local folder provided as input, ignoring 'folder-uri'" ;;
            mret (Some input, None)
          else mret (Some input, folderUri)
        else mret (None, folderUri)
    | [] => mret (None, folderUri)
    end;
  if truthy extensionTestsPath
  then
    mret (RunTests
            {| browserType := browserType;
               extensionDevelopmentPath := extensionDevelopmentPath;
               extensionTestsPath := extensionTestsPath;
               quality := quality; version := None; devTools := devTools;
               headless := headless; hideServerLog := hideServerLog;
               waitForDebugger := waitForDebugger;
               folderPath := folderPath; folderUri := folderUri;
               permissions := permissions;
               extensionPaths := extensionPaths;
               vsCodeDevPath := vsCodeDevPath; verbose := verbose;
               port := port; host := host |})
  else
    mret (Open
            {| browserType := browserType;
               extensionDevelopmentPath := extensionDevelopmentPath;
               extensionTestsPath := None;
               quality := quality; version := None; devTools := devTools;
               headless := headless; hideServerLog := hideServerLog;
               waitForDebugger := waitForDebugger;
               folderPath := folderPath; folderUri := folderUri;
               permissions := permissions;
               extensionPaths := extensionPaths;
               vsCodeDevPath := vsCodeDevPath; verbose := verbose;
               port := port; host := host |}).

End CommandLine.

(** The strings an array begins with, up to its first element that is not
    a string. *)
Fixpoint leading_strings (items : list JsValue) : list string :=
  match items with
  | JString s :: rest => s :: leading_strings rest
  | _ => []
  end.

(** A machine to run the command line on: relative paths resolve under
    [/work], one test file and two folders exist. *)
Definition node_test : Node :=
  {| path_resolve := fun s =>
       if String.prefix "/" s then s else "/work/" +:+ s;
     fileExists := fun s => String.eqb s "/work/out/test/index.js";
     directoryExists := fun s =>
       String.eqb s "/work/ext" || String.eqb s "/work/folder"
       || String.eqb s "/src/vscode";
     parseInt := fun s =>
       if String.eqb s "8080" then Some 8080
       else if String.eqb s "-1" then Some (-1)
       else if String.eqb s "1000000000000000000000" then Some (10 ^ 21)
       else None;
     numberText := fun _ => "1e+21" |}.

(** [--extensionTestsPath out/test/index.js --extensionDevelopmentPath ext
     --port 8080 --folder-uri vscode-vfs://x folder] *)
Definition args_test : gmap string JsValue :=
  <["extensionTestsPath" := JString "out/test/index.js"]>
  (<["extensionDevelopmentPath" := JString "ext"]>
  (<["port" := JString "8080"]>
  (<["folder-uri" := JString "vscode-vfs://x"]> ∅))).

(** [--sourcesPath /src/vscode --quality nightly --port=-1] *)
Definition args_sources : gmap string JsValue :=
  <["sourcesPath" := JString "/src/vscode"]>
  (<["quality" := JString "nightly"]>
  (<["port" := JString "-1"]> ∅)).

(** What [validatePathOrUndefined] makes of the option [name]: nothing when
    it is missing, the empty string as it is, and a non-empty string
    resolved, to a file or folder that exists. *)
Definition path_option (node : Node) (args : gmap string JsValue)
    (name : string) (isFile : bool) (r : option string) : Prop :=
  option_value args name = JUndefined ∧ r = None
  ∨ option_value args name = JString "" ∧ r = Some ""
  ∨ ∃ s, option_value args name = JString s ∧ s ≠ ""
         ∧ r = Some (path_resolve node s)
         ∧ (if isFile then fileExists node (path_resolve node s)
            else directoryExists node (path_resolve node s)) = true.

(** A run of command-line code that ends the process only with the exit
    code -1. *)
Definition exits_with_failure {A} (m : Cli A) : Prop :=
  ∀ code out, m = Exit code out → code = Some (-1).

(** ** Further readings of a session *)

(** The calls of an [openBrowser] that completes, in the order made. *)
Definition openBrowser_calls
    (env : Env) (endpoint : string) (options : Options) : list Call :=
  [CLaunch (browserType options)
     (default (bool_decide (is_Some (extensionTestsPath options)))
        (headless options))
     (launch_args env options) (devTools options);
   CNewContext]
  ++ match permissions options with
     | Some ps => [CGrantPermissions ps]
     | None => []
     end
  ++ [COnPage; CNewPage]
  ++ match waitForDebugger options with
     | Some port => if number_truthy port then [CWaitForFunction] else []
     | None => []
     end
  ++ match verbose options with
     | Some true => [COnConsole]
     | _ => []
     end
  ++ [CSetViewportSize 1200 800; CGoto endpoint].

(** [{ browserType: 'chromium', quality: 'stable',
      vsCodeDevPath: '/src/vscode' }] *)
Definition options_sources : Options :=
  {| browserType := chromium; extensionDevelopmentPath := None;
     extensionTestsPath := None; quality := Some stable;
     version := None; devTools := None; headless := None;
     hideServerLog := None; waitForDebugger := None;
     folderPath := None; folderUri := None; permissions := None;
     extensionPaths := None; vsCodeDevPath := Some "/src/vscode";
     verbose := None; port := None; host := None |}.

(** [{ browserType: 'chromium', waitForDebugger: port }] *)
Definition options_debug (port : Number) : Options :=
  {| browserType := chromium; extensionDevelopmentPath := None;
     extensionTestsPath := None; quality := None;
     version := None; devTools := None; headless := None;
     hideServerLog := None; waitForDebugger := Some port;
     folderPath := None; folderUri := None; permissions := None;
     extensionPaths := None; vsCodeDevPath := None;
     verbose := None; port := None; host := None |}.

(** Calls of the page to the bridge. *)
Definition is_bridge_call (ev : Event) : bool :=
  match ev with CallLog _ _ | CallExit _ => true | _ => false end.

(** The listener of the context's close is armed, or the server is closed
    already. *)
Definition server_follows_context (w : World) : Prop :=
  server w ≠ Absent ∧ (once_close w = true ∨ server w = Closed).

(** ** Rules of the logic of call sequences *)

Section Protocol.

Variable env : Env.

Variable P : Call -> Prop.

Lemma protocol_ret {A} (a : A) : protocol env P (ret a).
Proof.
  intros w. simpl. exists []. rewrite app_nil_r. by repeat split.
Qed.

Lemma protocol_bind {A B} (m : Js A) (k : A -> Js B) :
  protocol env P m → (∀ a, protocol env P (k a)) → protocol env P (bind m k).
Proof.
  intros Hm Hk w. unfold bind. specialize (Hm w).
  destruct (m w) as [[a|e] w1].
  - destruct Hm as (l1 & E1 & P1 & A1). specialize (Hk a w1).
    destruct (k a w1) as [[b|e] w2].
    + destruct Hk as (l2 & E2 & P2 & A2). exists (l1 ++ l2).
      rewrite E2, E1, app_assoc. repeat split; by apply Forall_app.
    + destruct Hk as (l2 & c & op & E2 & P2 & A2 & Hc & He).
      exists (l1 ++ l2), c, op. rewrite E2, E1, !app_assoc.
      repeat split; try done.
      * rewrite <- app_assoc. by apply Forall_app.
      * by apply Forall_app.
  - exact Hm.
Qed.

Lemma protocol_await (c : Call) (op : Op) :
  P c → call_op c = Some op → protocol env P (await env c op).
Proof.
  intros Hc Hop w. unfold await.
  destruct (rejects env op) as [e|] eqn:E; simpl.
  - exists [], c, op. repeat split; try done. by apply Forall_singleton.
  - exists [c]. repeat split; try by apply Forall_singleton.
    apply Forall_singleton. intros op' Hop'. congruence.
Qed.

Lemma protocol_effect (f : World -> World) :
  (∀ w, calls (f w) = calls w) → protocol env P (effect f).
Proof.
  intros Hf w. simpl. exists []. rewrite app_nil_r, Hf. by repeat split.
Qed.

Lemma protocol_log (c : Call) :
  P c → call_op c = None → protocol env P (effect (log_call c)).
Proof.
  intros Hc Hop w. simpl. exists [c].
  repeat split; apply Forall_singleton; try done.
  intros op Hop'. congruence.
Qed.

Section Guarantee.

Context (R : relation World) `{!PreOrder R}.

Lemma guarantees_ret {A} (a : A) : guarantees R (ret a).
Proof. intros w. simpl. reflexivity. Qed.

Lemma guarantees_bind {A B} (m : Js A) (k : A -> Js B) :
  guarantees R m → (∀ a, guarantees R (k a)) → guarantees R (bind m k).
Proof.
  intros Hm Hk w. unfold bind. specialize (Hm w).
  destruct (m w) as [[a|e] w1]; simpl in *; [|done].
  etrans; [exact Hm | apply Hk].
Qed.

Lemma guarantees_await (c : Call) (op : Op) :
  (∀ w, R w (log_call c w)) → guarantees R (await env c op).
Proof. intros H w. unfold await. destruct (rejects env op); apply H. Qed.

Lemma guarantees_effect (f : World -> World) :
  (∀ w, R w (f w)) → guarantees R (effect f).
Proof. intros H w. apply H. Qed.

End Guarantee.

End Protocol.

(** ** The protocol of the start-up *)

Section Startup.

Variable env : Env.

Lemma protocol_weaken (P Q : Call -> Prop) {A} (m : Js A) :
  (∀ c, P c → Q c) → protocol env P m → protocol env Q m.
Proof.
  intros HPQ Hm w. specialize (Hm w). destruct (m w) as [[a|e] w'].
  - destruct Hm as (l & E & Pl & Al). exists l. repeat split; try done.
    eapply Forall_impl; [exact Pl | exact HPQ].
  - destruct Hm as (l & c & op & E & Pl & Al & Hc & He). exists l, c, op.
    repeat split; try done. eapply Forall_impl; [exact Pl | exact HPQ].
Qed.

(** Whatever the completion, the log only grows, by calls satisfying [P]. *)
Lemma protocol_calls (P : Call -> Prop) {A} (m : Js A) (w : World) :
  protocol env P m →
  ∃ l, calls (snd (m w)) = calls w ++ l ∧ Forall P l.
Proof.
  intros Hm. specialize (Hm w). destruct (m w) as [[a|e] w']; simpl.
  - destruct Hm as (l & E & Pl & _). by exists l.
  - destruct Hm as (l & c & op & E & Pl & _). by exists (l ++ [c]).
Qed.

Lemma ends_with_bind (P : Call -> Prop) (c : Call) {A B}
    (m : Js A) (k : A -> Js B) :
  protocol env P m → (∀ a, ends_with P c (k a)) → ends_with P c (bind m k).
Proof.
  intros Hm Hk w b w' E. unfold bind in E. specialize (Hm w).
  destruct (m w) as [[a|e] w1]; [|done].
  destruct Hm as (l1 & E1 & P1 & _).
  destruct (Hk a w1 b w' E) as (l2 & E2 & P2).
  exists (l1 ++ l2). rewrite E2, E1, !app_assoc. split; [done|].
  by apply Forall_app.
Qed.

Lemma ends_with_await (P : Call -> Prop) (c : Call) (op : Op) :
  ends_with P c (await env c op).
Proof.
  intros w a w' E. unfold await in E.
  destruct (rejects env op); [done|]. injection E as _ <-.
  exists []. by split.
Qed.

Lemma protocol_page_created (P : Call -> Prop) :
  protocol env P page_created.
Proof.
  intros w. unfold page_created. simpl. exists []. rewrite app_nil_r.
  repeat split; try done. by destruct (page_listener w).
Qed.

Section Browser.

Variables (endpoint : string) (options : Options).

Lemma protocol_newPage :
  protocol env (browser_call env endpoint options) (newPage env).
Proof.
  apply protocol_bind; [by apply protocol_await|].
  intros _. apply protocol_page_created.
Qed.

Lemma protocol_first_page :
  protocol env (browser_call env endpoint options)
    (fun w => match pages w with
              | p :: _ => ret p w
              | [] => newPage env w
              end).
Proof.
  intros w. destruct (pages w) as [|p ps].
  - apply protocol_newPage.
  - apply (protocol_ret env _ p w).
Qed.

Lemma protocol_grantPermissions :
  protocol env (browser_call env endpoint options)
    (match permissions options with
     | Some ps =>
         not_awaited (await env (CGrantPermissions ps) OpGrantPermissions)
     | None => ret tt
     end).
Proof.
  destruct (permissions options) as [ps|]; [|apply protocol_ret].
  intros w. unfold not_awaited, await. simpl.
  exists [CGrantPermissions ps].
  destruct (rejects env OpGrantPermissions);
    repeat split; by apply Forall_singleton.
Qed.

Lemma protocol_waitForFunction :
  protocol env (browser_call env endpoint options)
    (match waitForDebugger options with
     | Some port =>
         if number_truthy port
         then await env CWaitForFunction OpWaitForFunction
         else ret tt
     | None => ret tt
     end).
Proof.
  destruct (waitForDebugger options) as [n|]; [|apply protocol_ret].
  destruct (number_truthy n); [by apply protocol_await | apply protocol_ret].
Qed.

Lemma protocol_onConsole :
  protocol env (browser_call env endpoint options)
    (match verbose options with
     | Some true => effect (log_call COnConsole)
     | _ => ret tt
     end).
Proof.
  destruct (verbose options) as [[|]|]; try apply protocol_ret.
  by apply protocol_log.
Qed.

(** One statement of [openBrowser] after the other. *)
Ltac browser_statement :=
  first
    [ apply protocol_grantPermissions
    | apply protocol_waitForFunction
    | apply protocol_onConsole
    | apply protocol_first_page
    | by apply protocol_await
    | by apply protocol_log
    | by apply protocol_effect ].

Lemma protocol_openBrowser :
  protocol env (browser_call env endpoint options)
    (openBrowser env endpoint options).
Proof.
  unfold openBrowser, newContext.
  repeat (apply protocol_bind; [|intros ?]); browser_statement.
Qed.

(** A completed [openBrowser] has navigated last. *)
Lemma openBrowser_ends_with_goto :
  ends_with (browser_call env endpoint options) (CGoto endpoint)
    (openBrowser env endpoint options).
Proof.
  unfold openBrowser, newContext.
  repeat (apply ends_with_bind; [|intros ?]);
    try apply ends_with_await;
    try (apply protocol_bind; [|intros ?]); browser_statement.
Qed.

(** [openBrowser] launches first, with the arguments of [launch_args]. *)
Lemma openBrowser_launches_first (w : World) :
  ∃ headless rest,
    calls (snd (openBrowser env endpoint options w))
    = calls w
      ++ CLaunch (browserType options) headless (launch_args env options)
           (devTools options) :: rest.
Proof.
  unfold openBrowser. eexists.
  match goal with
  | |- context [bind (await env ?c ?op) ?k] =>
      assert (Hk : protocol env (browser_call env endpoint options) (k tt))
  end.
  { unfold newContext.
    repeat (apply protocol_bind; [|intros ?]); browser_statement. }
  unfold bind at 1. unfold await at 1.
  destruct (rejects env OpLaunch) as [e|].
  - exists []. done.
  - match goal with
    | |- context [snd (?k ?w1)] =>
        destruct (protocol_calls _ k w1 Hk) as (l & -> & _)
    end.
    exists l. simpl. by rewrite <- app_assoc.
Qed.

End Browser.

Lemma protocol_getBuild (options : Options) :
  protocol env (start_call options) (getBuild env options).
Proof.
  unfold getBuild. destruct (truthy (vsCodeDevPath options)).
  - apply protocol_ret.
  - unfold downloadAndUnzipVSCode.
    apply protocol_bind; [by apply protocol_await|].
    intros _. apply protocol_ret.
Qed.

Lemma protocol_runServer (options : Options) (config : IConfig) :
  cfg_hideServerLog config = default true (hideServerLog options) →
  protocol env (start_call options)
    (runServer env (default "localhost" (host options))
       (default 3000 (port options)) config).
Proof.
  intros Hcfg. unfold runServer.
  apply protocol_bind; [by apply protocol_await|].
  intros _. by apply protocol_effect.
Qed.

Lemma protocol_runTests_start (options : Options) :
  protocol env (start_call options) (runTests_start env options).
Proof.
  unfold runTests_start.
  apply protocol_bind; [apply protocol_getBuild|]. intros build.
  apply protocol_bind; [by apply protocol_runServer|].
  intros _. apply protocol_ret.
Qed.

Lemma protocol_once_context_close (options : Options) :
  protocol env (startup_call env options) once_context_close.
Proof.
  unfold once_context_close.
  apply protocol_bind; [|intros _; by apply protocol_effect].
  apply protocol_log; [|done]. right. by right.
Qed.

Lemma protocol_open (options : Options) :
  protocol env (startup_call env options) (open env options).
Proof.
  unfold open.
  apply protocol_bind.
  { eapply protocol_weaken; [|apply protocol_getBuild]. by left. }
  intros build. apply protocol_bind.
  { eapply protocol_weaken; [|by apply protocol_runServer]. by left. }
  intros _. apply protocol_bind.
  { eapply protocol_weaken; [|apply protocol_openBrowser].
    intros c Hc. right. left. exact Hc. }
  intros _. apply protocol_once_context_close.
Qed.

End Startup.

(** ** The launch arguments *)

(** C9. The launch arguments contain ['--no-sandbox'] exactly when the
    platform is Linux and the requested engine is chromium, and these are
    the arguments [openBrowser] launches the browser with: its first call
    is the launch, carrying [launch_args]. *)
Theorem no_sandbox_iff_linux_chromium
    (env : Env) (options : Options) (endpoint : string) (w : World) :
  ("--no-sandbox" ∈ launch_args env options
   ↔ platform env = "linux" ∧ browserType options = chromium)
  ∧ ∃ headless rest,
      calls (snd (openBrowser env endpoint options w))
      = calls w
        ++ CLaunch (browserType options) headless (launch_args env options)
             (devTools options) :: rest.
Proof.
  split; [|apply openBrowser_launches_first].
  unfold launch_args.
  destruct (String.eqb_spec (platform env) "linux") as [Hp|Hp];
    case_bool_decide as Hb; simpl;
    destruct (waitForDebugger options) as [n|];
    try destruct (number_truthy n);
    rewrite ?elem_of_cons, ?elem_of_nil; simpl;
    split; intros H; try done; intuition (try discriminate; try done).
Qed.

(** ** What a whole [runTests] logs *)

Section RunTests.

Variables (env : Env) (options : Options).

Lemma calls_settle (p : PromiseState) (w : World) :
  calls (settle p w) = calls w.
Proof. unfold settle. by destruct (promise w). Qed.

Lemma runTests_start_result (w w' : World) (h : string) (p : Z) :
  runTests_start env options w = (Normal (h, p), w') →
  h = default "localhost" (host options)
  ∧ p = default 3000 (port options).
Proof.
  unfold runTests_start, bind.
  destruct (getBuild env options w) as [[build|e] w1]; [|done].
  match goal with |- context [runServer env ?h0 ?p0 ?c w1] =>
    destruct (runServer env h0 p0 c w1) as [[[]|e] w2] end; [|done].
  unfold ret. by intros [= <- <- _].
Qed.

Lemma protocol_exposeFunction (P : Call -> Prop) (name : string) :
  P (CExposeFunction name) → protocol env P (exposeFunction env name).
Proof.
  intros HP. unfold exposeFunction.
  apply protocol_bind; [by apply protocol_await|].
  intros _. by apply protocol_effect.
Qed.

Lemma protocol_runTests_executor :
  protocol env (session_call env options)
    (runTests_executor env options
       (default "localhost" (host options)) (default 3000 (port options))).
Proof.
  unfold runTests_executor. apply protocol_bind.
  { eapply protocol_weaken; [|apply protocol_openBrowser].
    intros c Hc. left. right. left. exact Hc. }
  intros _. apply protocol_bind.
  { eapply protocol_weaken; [|apply protocol_once_context_close].
    intros c Hc. left. exact Hc. }
  intros _. apply protocol_bind; [|intros _];
    apply protocol_exposeFunction; by right.
Qed.

Lemma runTests_calls (w : World) :
  ∃ l, calls (runTests env options w) = calls w ++ l
       ∧ Forall (session_call env options) l.
Proof.
  unfold runTests.
  pose proof (protocol_runTests_start env options w) as Hs.
  destruct (runTests_start env options w) as [[[h p]|e] w1] eqn:E.
  - destruct Hs as (l1 & E1 & P1 & _).
    apply runTests_start_result in E as [-> ->].
    destruct (protocol_calls env _ _ w1 protocol_runTests_executor)
      as (l2 & E2 & P2).
    exists (l1 ++ l2). rewrite E2, E1, app_assoc. split; [done|].
    apply Forall_app. split; [|done].
    eapply Forall_impl; [exact P1|]. intros c Hc. left. by left.
  - destruct Hs as (l & c & op & E1 & P1 & _).
    exists (l ++ [c]). rewrite calls_settle. split; [done|].
    eapply Forall_impl; [exact P1|]. intros c' Hc. left. by left.
Qed.

End RunTests.

(** ** The server configuration *)

Lemma server_configs_app (l1 l2 : list Call) :
  server_configs (l1 ++ l2) = server_configs l1 ++ server_configs l2.
Proof. apply omap_app. Qed.

Lemma server_configs_hide (env : Env) (options : Options) (l : list Call) :
  hideServerLog options = None →
  Forall (session_call env options) l →
  Forall (fun cfg => cfg_hideServerLog cfg = true) (server_configs l).
Proof.
  intros Hnone Hl. induction Hl as [|c l Hc _ IH]; [constructor|].
  change (c :: l) with ([c] ++ l). rewrite server_configs_app.
  apply Forall_app. split; [|exact IH].
  destruct c; simpl; try constructor; [|constructor].
  destruct Hc as [[Hc|[Hc|Hc]]|Hc]; try done.
  destruct Hc as (_ & _ & ->). by rewrite Hnone.
Qed.

(** When the build is resolved, the server start is called, in [runTests]
    and in [open]. *)
Lemma server_start_called
    (env : Env) (options : Options) (build : Build) (w0 : World) :
  getBuild env options initial = (Normal build, w0) →
  (∀ L, calls (runTests env options initial) = L →
        ∃ cfg, cfg ∈ server_configs L)
  ∧ (∀ L, calls (snd (open env options initial)) = L →
          ∃ cfg, cfg ∈ server_configs L).
Proof.
  intros E. split; intros L.
  - unfold runTests, runTests_start. unfold bind at 1. rewrite E.
    unfold bind at 1, runServer at 1, bind at 1, await at 1.
    destruct (rejects env OpRunServer) as [e|].
    + rewrite calls_settle. simpl. intros <-. eexists.
      rewrite server_configs_app. apply elem_of_app. right.
      apply list_elem_of_here.
    + unfold effect, ret.
      match goal with |- context [runTests_executor env options ?h ?p ?w1] =>
        destruct (protocol_calls env _ _ w1
                    (protocol_runTests_executor env options)) as (l & -> & _)
      end.
      simpl. intros <-. eexists. rewrite !server_configs_app.
      apply elem_of_app. left. apply elem_of_app. right.
      apply list_elem_of_here.
  - unfold open. unfold bind at 1. rewrite E.
    unfold bind at 1, runServer at 1, bind at 1, await at 1.
    destruct (rejects env OpRunServer) as [e|].
    + simpl. intros <-. eexists.
      rewrite server_configs_app. apply elem_of_app. right.
      apply list_elem_of_here.
    + unfold effect.
      match goal with |- context [snd (bind ?m ?k ?w1)] =>
        destruct (protocol_calls env (fun _ => True) (bind m k) w1)
          as (l & -> & _)
      end.
      { apply protocol_bind.
        - eapply protocol_weaken; [|apply protocol_openBrowser]. done.
        - intros _. eapply protocol_weaken;
            [|apply (protocol_once_context_close env options)]. done. }
      simpl. intros <-. eexists. rewrite !server_configs_app.
      apply elem_of_app. left. apply elem_of_app. right.
      apply list_elem_of_here.
Qed.

(** C10. With [hideServerLog] left unset, every configuration the server
    is started with has [hideServerLog] true, in [runTests] and in [open],
    whether or not [extensionTestsPath] is set; and the server is started
    with one whenever the build is resolved. *)
Theorem hideServerLog_defaults_to_true (env : Env) (options : Options) :
  hideServerLog options = None →
  Forall (fun cfg => cfg_hideServerLog cfg = true)
    (server_configs (calls (runTests env options initial)))
  ∧ Forall (fun cfg => cfg_hideServerLog cfg = true)
      (server_configs (calls (snd (open env options initial))))
  ∧ ∀ build w0, getBuild env options initial = (Normal build, w0) →
      (∃ cfg, cfg ∈ server_configs (calls (runTests env options initial)))
      ∧ ∃ cfg, cfg ∈ server_configs
                       (calls (snd (open env options initial))).
Proof.
  intros Hnone. split; [|split].
  - destruct (runTests_calls env options initial) as (l & -> & Hl).
    by apply (server_configs_hide env options).
  - destruct (protocol_calls env _ _ initial (protocol_open env options))
      as (l & -> & Hl).
    apply (server_configs_hide env options); [done|].
    eapply Forall_impl; [exact Hl|]. intros c Hc. by left.
  - intros build w0 E.
    destruct (server_start_called env options build w0 E) as [Ht Ho].
    split; [by apply Ht|by apply Ho].
Qed.

(** In the interactive session the server is started once, with
    [hideServerLog] true. *)
Lemma hideServerLog_defaults_to_true_witness :
  hideServerLog options_interactive = None
  ∧ Forall (fun cfg => cfg_hideServerLog cfg = true)
      (server_configs (calls (snd (open env_ok options_interactive initial))))
  ∧ length (server_configs
              (calls (snd (open env_ok options_interactive initial)))) = 1%nat.
Proof.
  split; [reflexivity|]. split.
  - pose proof (hideServerLog_defaults_to_true env_ok options_interactive
                  eq_refl) as (_ & Ho & _).
    exact Ho.
  - vm_compute. reflexivity.
Defined.

(** ** Failure of the server start *)

(** C8. When the server start rejects, no browser launch is ever
    attempted, in [runTests] and in [open]: the promise of [runTests] is
    rejected and [open] throws, with the error of the server start whenever
    the build was resolved. *)
Theorem server_failure_launches_no_browser
    (env : Env) (options : Options) (e : JsError) :
  rejects env OpRunServer = Some e →
  (Forall (fun c => is_launch c = false)
     (calls (runTests env options initial))
   ∧ browser (runTests env options initial) = Absent
   ∧ ∃ e', promise (runTests env options initial) = Rejected e')
  ∧ (Forall (fun c => is_launch c = false)
       (calls (snd (open env options initial)))
     ∧ browser (snd (open env options initial)) = Absent
     ∧ ∃ e', fst (open env options initial) = Throw e')
  ∧ ∀ build w, getBuild env options initial = (Normal build, w) →
      promise (runTests env options initial) = Rejected e
      ∧ fst (open env options initial) = Throw e.
Proof.
  intros He.
  unfold runTests, runTests_start, open, getBuild, downloadAndUnzipVSCode,
    runServer, bind, await, ret.
  destruct (truthy (vsCodeDevPath options));
    [|destruct (rejects env OpDownload) as [e0|]];
    rewrite ?He; simpl;
    (split; [|split]);
    try (split; [repeat constructor | split; [done | by eexists]]);
    intros build w; by intros [= <- <-].
Qed.

(** The port is in use: nothing but the download and the server start is
    called. *)
Lemma server_failure_launches_no_browser_witness :
  rejects env_port_in_use OpRunServer = Some (Error "listen EADDRINUSE")
  ∧ promise (runTests env_port_in_use options_test initial)
    = Rejected (Error "listen EADDRINUSE")
  ∧ fst (open env_port_in_use options_test initial)
    = Throw (Error "listen EADDRINUSE")
  ∧ Forall (fun c => is_launch c = false)
      (calls (runTests env_port_in_use options_test initial)).
Proof.
  split; [reflexivity|].
  pose proof (server_failure_launches_no_browser env_port_in_use options_test
                (Error "listen EADDRINUSE") eq_refl) as (Ht & _ & Hb).
  destruct (Hb (Static "/tmp/vscode-web")
              (log_call (CDownload "insider") initial) eq_refl) as [Hp Ho].
  split; [exact Hp|]. split; [exact Ho|]. apply Ht.
Defined.

(** ** The start-up only acquires *)

#[global] Instance acquires_preorder : PreOrder acquires.
Proof.
  split.
  - intros w. unfold acquires. auto.
  - intros w1 w2 w3 (S1 & B1 & P1) (S2 & B2 & P2). unfold acquires.
    rewrite P2, P1. split; [|split; [|done]].
    + destruct S2 as [->| ->]; auto.
    + destruct B2 as [->| ->]; auto.
Qed.

Section Acquire.

Variable env : Env.

(** A statement that touches neither handle nor the promise. *)
Ltac untouched := solve [intros ?; unfold acquires; simpl; auto].

Lemma acquires_ret {A} (a : A) : guarantees acquires (ret a).
Proof. apply guarantees_ret, _. Qed.

Lemma acquires_bind {A B} (m : Js A) (k : A -> Js B) :
  guarantees acquires m → (∀ a, guarantees acquires (k a)) →
  guarantees acquires (bind m k).
Proof. apply guarantees_bind, _. Qed.

Lemma acquires_page_created : guarantees acquires page_created.
Proof.
  intros w. unfold page_created. simpl.
  destruct (page_listener w); unfold acquires; simpl; auto.
Qed.

Lemma acquires_openBrowser (endpoint : string) (options : Options) :
  guarantees acquires (openBrowser env endpoint options).
Proof.
  unfold openBrowser, newContext.
  repeat (apply acquires_bind; [|intros ?]);
    try (apply guarantees_await; untouched);
    try (apply guarantees_effect; untouched).
  - destruct (permissions options); [|apply acquires_ret].
    intros w. unfold not_awaited, await.
    destruct (rejects env OpGrantPermissions); unfold acquires; simpl; auto.
  - intros w. destruct (pages w); [|apply acquires_ret].
    apply acquires_bind; [|intros ?].
    + apply guarantees_await; untouched.
    + apply acquires_page_created.
  - destruct (waitForDebugger options) as [n|]; [|apply acquires_ret].
    destruct (number_truthy n); [|apply acquires_ret].
    apply guarantees_await; untouched.
  - destruct (verbose options) as [[|]|]; try apply acquires_ret.
    apply guarantees_effect; untouched.
Qed.

Lemma acquires_getBuild (options : Options) :
  guarantees acquires (getBuild env options).
Proof.
  unfold getBuild. destruct (truthy (vsCodeDevPath options)).
  - apply acquires_ret.
  - unfold downloadAndUnzipVSCode.
    apply acquires_bind; [|intros ?; apply acquires_ret].
    apply guarantees_await; untouched.
Qed.

Lemma acquires_runServer (h : string) (p : Z) (config : IConfig) :
  guarantees acquires (runServer env h p config).
Proof.
  unfold runServer. apply acquires_bind; [|intros ?].
  - apply guarantees_await; untouched.
  - apply guarantees_effect; untouched.
Qed.

Lemma acquires_once_context_close : guarantees acquires once_context_close.
Proof.
  unfold once_context_close.
  apply acquires_bind; [|intros ?];
    apply guarantees_effect; untouched.
Qed.

Lemma acquires_open (options : Options) :
  guarantees acquires (open env options).
Proof.
  unfold open.
  apply acquires_bind; [apply acquires_getBuild|intros build].
  apply acquires_bind; [apply acquires_runServer|intros _].
  apply acquires_bind; [apply acquires_openBrowser|intros _].
  apply acquires_once_context_close.
Qed.

Lemma acquires_runTests_start (options : Options) :
  guarantees acquires (runTests_start env options).
Proof.
  unfold runTests_start.
  apply acquires_bind; [apply acquires_getBuild|intros build].
  apply acquires_bind; [apply acquires_runServer|intros _].
  apply acquires_ret.
Qed.

Lemma acquires_exposeFunction (name : string) :
  guarantees acquires (exposeFunction env name).
Proof.
  unfold exposeFunction. apply acquires_bind; [|intros ?].
  - apply guarantees_await; untouched.
  - apply guarantees_effect; untouched.
Qed.

Lemma acquires_runTests_executor (options : Options) (h : string) (p : Z) :
  guarantees acquires (runTests_executor env options h p).
Proof.
  unfold runTests_executor.
  apply acquires_bind; [apply acquires_openBrowser|intros _].
  apply acquires_bind; [apply acquires_once_context_close|intros _].
  apply acquires_bind; [|intros _]; apply acquires_exposeFunction.
Qed.

End Acquire.

(** ** Navigation and the bridge *)

Lemma startup_call_not_expose (env : Env) (options : Options) (c : Call) :
  startup_call env options c → is_expose c = false.
Proof.
  unfold startup_call.
  destruct c; simpl; intros H; try reflexivity; by destruct H as [H|[H|H]].
Qed.

Lemma browser_call_not_expose
    (env : Env) (endpoint : string) (options : Options) (c : Call) :
  browser_call env endpoint options c → is_expose c = false.
Proof. by destruct c. Qed.

Lemma start_call_not_expose (options : Options) (c : Call) :
  start_call options c → is_expose c = false.
Proof. by destruct c. Qed.

(** An installation found in a log whose first part has none lies in the
    second part. *)
Lemma expose_after_prefix (pre post : list Call) (c a : Call) (i : nat) :
  Forall (fun c => is_expose c = false) (pre ++ [c]) →
  (pre ++ [c] ++ post) !! i = Some a → is_expose a = true →
  (length pre < i)%nat ∧ (pre ++ [c] ++ post) !! length pre = Some c.
Proof.
  intros Hpre Hi Ha. split; [|by apply list_lookup_middle].
  destruct (decide (length pre < i)%nat) as [|Hle]; [done|exfalso].
  rewrite app_assoc in Hi. rewrite lookup_app_l in Hi.
  - pose proof (Forall_lookup_1 _ _ _ _ Hpre Hi) as Hno. simpl in Hno.
    congruence.
  - rewrite length_app. simpl. lia.
Qed.

Lemma no_expose_lookup (l : list Call) (i : nat) (name : string) :
  Forall (fun c => is_expose c = false) l →
  l !! i = Some (CExposeFunction name) → False.
Proof.
  intros Hl Hi. by pose proof (Forall_lookup_1 _ _ _ _ Hl Hi).
Qed.

(** The log of [runTests]: no installation at all, or none up to and
    including the navigation. *)
Lemma runTests_log_shape (env : Env) (options : Options) (L : list Call) :
  calls (runTests env options initial) = L →
  Forall (fun c => is_expose c = false) L
  ∨ ∃ pre post,
      L = pre ++ [CGoto (endpoint_of options)] ++ post
      ∧ Forall (fun c => is_expose c = false)
          (pre ++ [CGoto (endpoint_of options)]).
Proof.
  unfold runTests.
  pose proof (protocol_runTests_start env options initial) as Hs.
  destruct (runTests_start env options initial) as [[[h p]|e] w1] eqn:Es.
  - apply runTests_start_result in Es as [-> ->].
    destruct Hs as (l1 & E1 & P1 & _). simpl in E1.
    unfold runTests_executor. fold (endpoint_of options). unfold bind at 1.
    pose proof (protocol_openBrowser env (endpoint_of options) options w1)
      as Hb.
    pose proof (openBrowser_ends_with_goto env (endpoint_of options)
                  options w1) as Hg.
    destruct (openBrowser env (endpoint_of options) options w1)
      as [[[]|e] w2].
    + destruct (Hg tt w2 eq_refl) as (l2 & E2 & P2).
      match goal with |- context [snd (?m w2)] =>
        destruct (protocol_calls env (fun _ => True) m w2) as (l3 & E3 & _)
      end.
      { apply protocol_bind; [|intros _; apply protocol_bind; [|intros _]].
        - apply protocol_bind; [by apply protocol_log|].
          intros _. by apply protocol_effect.
        - by apply protocol_exposeFunction.
        - by apply protocol_exposeFunction. }
      rewrite E3, E2, E1. intros <-. right. exists (l1 ++ l2), l3.
      rewrite <- !app_assoc. split; [done|]. apply Forall_app. split.
      * eapply Forall_impl; [exact P1|]. apply start_call_not_expose.
      * apply Forall_app. split; [|by apply Forall_singleton].
        eapply Forall_impl; [exact P2|]. apply browser_call_not_expose.
    + destruct Hb as (l2 & c & op & E2 & P2 & _). simpl.
      rewrite E2, E1. intros <-. left. apply Forall_app. split.
      * eapply Forall_impl; [exact P1|]. apply start_call_not_expose.
      * eapply Forall_impl; [exact P2|]. apply browser_call_not_expose.
  - destruct Hs as (l1 & c & op & E1 & P1 & _). simpl in E1.
    rewrite calls_settle, E1. intros <-. left.
    eapply Forall_impl; [exact P1|]. apply start_call_not_expose.
Qed.

(** C2, as the code has it.  In [runTests] every installation of a bridge
    function comes after the call that navigates the first page to the
    endpoint: [openBrowser] has navigated before it returns, and the bridge
    is installed on the context it returns.  In [open] no bridge function is
    installed at all. *)
Theorem bridge_installed_after_navigation (env : Env) (options : Options) :
  (∀ i name,
     calls (runTests env options initial) !! i = Some (CExposeFunction name) →
     ∃ j, (j < i)%nat
          ∧ calls (runTests env options initial) !! j
            = Some (CGoto (endpoint_of options)))
  ∧ Forall (fun c => is_expose c = false)
      (calls (snd (open env options initial))).
Proof.
  split.
  - intros i name Hi.
    destruct (runTests_log_shape env options _ eq_refl)
      as [Hno|(pre & post & E & Hpre)].
    + exfalso. eapply no_expose_lookup; [exact Hno|exact Hi].
    + rewrite E in Hi |- *. exists (length pre).
      eapply expose_after_prefix; [exact Hpre|exact Hi|done].
  - destruct (protocol_calls env _ _ initial (protocol_open env options))
      as (l & -> & Hl).
    eapply Forall_impl; [exact Hl|]. apply startup_call_not_expose.
Qed.

(** A session of [runTests] where nothing rejects: the installation of
    [codeAutomationExit] is call 10 of the log, the navigation call 7. *)
Lemma bridge_installed_after_navigation_witness :
  calls (runTests env_ok options_test initial) !! 10%nat
  = Some (CExposeFunction "codeAutomationExit")
  ∧ ∃ j, (j < 10)%nat
         ∧ calls (runTests env_ok options_test initial) !! j
           = Some (CGoto "http://localhost:3000").
Proof.
  split; [reflexivity|].
  pose proof (bridge_installed_after_navigation env_ok options_test)
    as [H _].
  exact (H 10%nat "codeAutomationExit" eq_refl).
Defined.

(** C2, as stated, fails: in a session of [runTests] where nothing rejects,
    the navigation is call 7 of the log and the first installation of a
    bridge function is call 9. *)
Lemma bridge_not_installed_before_navigation :
  ¬ before is_expose is_goto (calls (runTests env_ok options_test initial)).
Proof.
  intros H.
  specialize (H 9%nat 7%nat (CExposeFunction "codeAutomationLog")
                (CGoto "http://localhost:3000")
                eq_refl eq_refl eq_refl eq_refl).
  lia.
Qed.

(** ** The session once the start-up has completed *)

Section Completed.

Variable env : Env.

(** A completed [openBrowser]: the browser is live, the context is new
    and has the one page that was created and counted. *)
Lemma openBrowser_completed
    (endpoint : string) (options : Options) (w w' : World) :
  openBrowser env endpoint options w = (Normal tt, w') →
  browser w' = Live ∧ server w' = server w ∧ promise w' = promise w
  ∧ once_close w' = false ∧ exposed w' = []
  ∧ page_listener w' = true
  ∧ close_listeners w' = {[next_page w]} ∪ ∅
  ∧ openPages w' = 0 + 1
  ∧ next_page w' = S (next_page w)
  ∧ pages w' = [next_page w].
Proof.
  unfold openBrowser, newContext, newPage, page_created, not_awaited,
    bind, await, effect, ret.
  destruct (rejects env OpLaunch); [done|].
  destruct (rejects env OpNewContext); [done|].
  (destruct (permissions options);
     [destruct (rejects env OpGrantPermissions)|]); simpl;
    (destruct (rejects env OpNewPage); [done|]);
    (destruct (waitForDebugger options) as [n|];
       [destruct (number_truthy n);
          [destruct (rejects env OpWaitForFunction); [done|]|]|]);
    destruct (verbose options) as [[|]|]; simpl;
    (destruct (rejects env OpSetViewportSize); [done|]);
    (destruct (rejects env OpGoto); [done|]);
    by intros [= <-].
Qed.

Lemma getBuild_frame (options : Options) (w : World) :
  forget_calls (snd (getBuild env options w)) = forget_calls w.
Proof.
  unfold getBuild, downloadAndUnzipVSCode, bind, await, ret.
  destruct (truthy (vsCodeDevPath options)); [done|].
  by destruct (rejects env OpDownload).
Qed.

Lemma runServer_completed
    (h : string) (p : Z) (config : IConfig) (w w' : World) :
  runServer env h p config w = (Normal tt, w') →
  server w' = Live ∧ forget_calls w' = forget_calls (set_server Live w).
Proof.
  unfold runServer, bind, await, effect.
  destruct (rejects env OpRunServer); [done|]. by intros [= <-].
Qed.

Lemma runServer_failed
    (h : string) (p : Z) (config : IConfig) (w w' : World) (e : JsError) :
  runServer env h p config w = (Throw e, w') →
  forget_calls w' = forget_calls w.
Proof.
  unfold runServer, bind, await, effect.
  destruct (rejects env OpRunServer); [|done]. by intros [= _ <-].
Qed.

(** A failed [openBrowser] has installed nothing. *)
Lemma openBrowser_exposes_nothing
    (endpoint : string) (options : Options) (w : World) :
  exposed w = [] → exposed (snd (openBrowser env endpoint options w)) = [].
Proof.
  intros Hw.
  unfold openBrowser, newContext, newPage, page_created, not_awaited,
    bind, await, effect, ret.
  destruct (rejects env OpLaunch); [done|].
  destruct (rejects env OpNewContext); [done|].
  (destruct (permissions options);
     [destruct (rejects env OpGrantPermissions)|]); simpl;
    (destruct (rejects env OpNewPage); [done|]);
    (destruct (waitForDebugger options) as [n|];
       [destruct (number_truthy n);
          [destruct (rejects env OpWaitForFunction); [done|]|]|]);
    destruct (verbose options) as [[|]|]; simpl;
    (destruct (rejects env OpSetViewportSize); [done|]);
    by destruct (rejects env OpGoto).
Qed.

Lemma tracking_first_page (w : World) (n : nat) :
  page_listener w = true → close_listeners w = {[n]} ∪ ∅ →
  openPages w = 0 + 1 → next_page w = S n → tracking w.
Proof.
  intros Hl Hs Ho Hn. unfold tracking. rewrite Hl, Hs, Ho, Hn.
  rewrite union_empty_r_L, size_singleton. split; [done|]. split; [done|].
  intros p [Hp|Hp]%elem_of_union.
  - apply elem_of_singleton in Hp. lia.
  - by apply elem_of_empty in Hp.
Qed.

Lemma counting_first_page (w : World) (n : nat) :
  page_listener w = true → close_listeners w = {[n]} ∪ ∅ →
  openPages w = 0 + 1 → next_page w = S n → pages w = [n] → counting w.
Proof.
  intros Hl Hs Ho Hn Hp. split; [by eapply tracking_first_page|].
  rewrite Hp, Hs. split; [apply NoDup_singleton|].
  simpl. by rewrite !union_empty_r_L.
Qed.

Lemma exposed_settle (p : PromiseState) (w : World) :
  exposed (settle p w) = exposed w.
Proof. unfold settle. by destruct (promise w). Qed.

(** A completed [open]: both handles live, the first page counted, no
    bridge. *)
Lemma open_completed (options : Options) (w : World) :
  open env options initial = (Normal tt, w) →
  server w = Live ∧ browser w = Live
  ∧ (counting w ∧ pages w = [0%nat])
  ∧ exposed w = [] ∧ promise w = Pending.
Proof.
  unfold open, bind.
  pose proof (getBuild_frame options initial) as Hb.
  destruct (getBuild env options initial) as [[build|e] w1]; [|done].
  simpl in Hb.
  match goal with |- context [runServer env ?h ?p ?c w1] =>
    destruct (runServer env h p c w1) as [[[]|e] w2] eqn:E2 end; [|done].
  apply runServer_completed in E2 as [Hs Hf].
  match goal with |- context [openBrowser env ?ep options w2] =>
    destruct (openBrowser env ep options w2) as [[[]|e] w3] eqn:E3 end;
    [|done].
  apply openBrowser_completed in E3
    as (B3 & S3 & P3 & _ & X3 & L3 & C3 & O3 & N3 & G3).
  assert (next_page w2 = 0%nat) as Hn2.
  { apply (f_equal next_page) in Hf, Hb. simpl in *. congruence. }
  unfold once_context_close, bind, effect. intros [= <-]. simpl.
  rewrite B3, S3, Hs, X3, P3.
  apply (f_equal promise) in Hf. simpl in Hf. rewrite Hf.
  apply (f_equal promise) in Hb. simpl in Hb. rewrite Hb.
  split; [done|]. split; [done|]. split; [|done].
  split; [by apply (counting_first_page _ (next_page w2))|].
  by rewrite G3, Hn2.
Qed.

(** A session of [runTests] in which [codeAutomationExit] got installed:
    both handles live, the first page counted, the promise pending. *)
Lemma runTests_ready (options : Options) (w : World) :
  runTests env options initial = w →
  "codeAutomationExit" ∈ exposed w →
  server w = Live ∧ browser w = Live
  ∧ (counting w ∧ pages w = [0%nat]) ∧ promise w = Pending.
Proof.
  unfold runTests, runTests_start, bind at 1.
  pose proof (getBuild_frame options initial) as Hb.
  destruct (getBuild env options initial) as [[build|e] w1]; simpl in Hb.
  2:{ intros <-. rewrite exposed_settle.
      apply (f_equal exposed) in Hb. simpl in *.
      rewrite Hb. by intros ?%elem_of_nil. }
  unfold bind at 1.
  match goal with |- context [runServer env ?h ?p ?c w1] =>
    destruct (runServer env h p c w1) as [[[]|e] w2] eqn:E2 end.
  2:{ intros <-. apply runServer_failed in E2. rewrite exposed_settle.
      apply (f_equal exposed) in E2, Hb. simpl in *.
      rewrite E2, Hb. by intros ?%elem_of_nil. }
  apply runServer_completed in E2 as [Hs Hf]. unfold ret.
  unfold runTests_executor, bind at 1.
  assert (exposed w2 = []) as Hx2.
  { apply (f_equal exposed) in Hf, Hb. simpl in *. by rewrite Hf, Hb. }
  pose proof (openBrowser_exposes_nothing
                ("http://" +:+ default "localhost" (host options) +:+ ":"
                 +:+ pretty (default 3000 (port options))) options w2 Hx2)
    as Hx3.
  match goal with |- context [openBrowser env ?ep options w2] =>
    destruct (openBrowser env ep options w2) as [[[]|e] w3] eqn:E3 end;
    simpl in Hx3.
  2:{ intros <-. simpl. rewrite Hx3. by intros ?%elem_of_nil. }
  apply openBrowser_completed in E3
    as (B3 & S3 & P3 & _ & X3 & L3 & C3 & O3 & N3 & G3).
  unfold once_context_close, exposeFunction, bind, await, effect.
  destruct (rejects env (OpExposeFunction "codeAutomationLog")); simpl.
  { intros <-. simpl. rewrite X3. by intros ?%elem_of_nil. }
  destruct (rejects env (OpExposeFunction "codeAutomationExit")); simpl.
  { intros <-. simpl. rewrite X3. simpl.
    intros [?|?%elem_of_nil]%elem_of_cons; done. }
  assert (next_page w2 = 0%nat) as Hn2.
  { apply (f_equal next_page) in Hf, Hb. simpl in *. congruence. }
  intros <- _. simpl. rewrite B3, S3, Hs, P3.
  apply (f_equal promise) in Hf. simpl in Hf. rewrite Hf.
  apply (f_equal promise) in Hb. simpl in Hb. rewrite Hb.
  split; [done|]. split; [done|]. split; [|done].
  split; [by apply (counting_first_page _ (next_page w2))|].
  by rewrite G3, Hn2.
Qed.

End Completed.

(** ** The exit handler and the promise of [runTests] *)

Section Exit.

Variable env : Env.

Ltac exit_cases w code :=
  unfold codeAutomationExit, try_catch, browser_close, server_close, settle,
    bind, await, effect, log_call, set_server, set_browser;
  destruct (rejects env OpBrowserClose); simpl;
  destruct (browser w); simpl; destruct (server w); simpl;
  destruct (code =? 0); simpl; destruct (promise w); simpl.

(** The exit handler always completes normally. *)
Lemma codeAutomationExit_normal (code : Z) (w : World) :
  fst (codeAutomationExit env code w) = Normal tt.
Proof. exit_cases w code; reflexivity. Qed.

Lemma codeAutomationExit_promise (code : Z) (w : World) :
  promise (snd (codeAutomationExit env code w))
  = match promise w with
    | Pending =>
        if code =? 0 then Fulfilled else Rejected (Error "Test failed")
    | settled => settled
    end.
Proof. exit_cases w code; reflexivity. Qed.

Lemma codeAutomationExit_exposed (code : Z) (w : World) :
  exposed (snd (codeAutomationExit env code w)) = exposed w.
Proof. exit_cases w code; reflexivity. Qed.

Lemma deliver_exposed (ev : Event) (w : World) :
  exposed (deliver env ev w) = exposed w.
Proof.
  destruct ev as [|page| | |code]; simpl.
  - by destruct (page_listener w).
  - case_bool_decide; [|done]. unfold on_page_close. simpl.
    destruct (_ =? 0); [|done]. unfold not_awaited, browser_close, bind,
      await, effect. simpl.
    destruct (rejects env OpBrowserClose); simpl; [done|].
    by destruct (browser w).
  - destruct (once_close w); [|done]. unfold server_close. simpl.
    by destruct (server w).
  - by case_bool_decide.
  - case_bool_decide; [|done]. apply codeAutomationExit_exposed.
Qed.

(** Only an exit call touches the promise. *)
Lemma deliver_promise (ev : Event) (w : World) :
  is_exit ev = false → promise (deliver env ev w) = promise w.
Proof.
  destruct ev as [|page| | |code]; simpl; [| | | |done]; intros _.
  - by destruct (page_listener w).
  - case_bool_decide; [|done]. unfold on_page_close. simpl.
    destruct (_ =? 0); [|done]. unfold not_awaited, browser_close, bind,
      await, effect. simpl.
    destruct (rejects env OpBrowserClose); simpl; [done|].
    by destruct (browser w).
  - destruct (once_close w); [|done]. unfold server_close. simpl.
    by destruct (server w).
  - by case_bool_decide.
Qed.

(** A settled promise stays as it is, whatever is delivered. *)
Lemma deliver_settled (ev : Event) (w : World) :
  promise w ≠ Pending → promise (deliver env ev w) = promise w.
Proof.
  intros Hw. destruct (is_exit ev) eqn:E; [|by apply deliver_promise].
  destruct ev; try done. simpl. case_bool_decide; [|done].
  rewrite codeAutomationExit_promise. by destruct (promise w).
Qed.

Lemma run_app (evs1 evs2 : list Event) (w : World) :
  run env (evs1 ++ evs2) w = run env evs2 (run env evs1 w).
Proof. apply foldl_app. Qed.

Lemma run_exposed (evs : list Event) (w : World) :
  exposed (run env evs w) = exposed w.
Proof.
  revert w. induction evs as [|ev evs IH]; intros w; [done|].
  simpl. change (foldl _ ?w0 evs) with (run env evs w0).
  by rewrite IH, deliver_exposed.
Qed.

Lemma run_promise (evs : list Event) (w : World) :
  Forall (fun ev => is_exit ev = false) evs →
  promise (run env evs w) = promise w.
Proof.
  intros Hevs. revert w.
  induction Hevs as [|ev evs Hev _ IH]; intros w; [done|].
  simpl. change (foldl _ ?w0 evs) with (run env evs w0).
  by rewrite IH, deliver_promise.
Qed.

Lemma run_settled (evs : list Event) (w : World) :
  promise w ≠ Pending → promise (run env evs w) = promise w.
Proof.
  revert w. induction evs as [|ev evs IH]; intros w Hw; [done|].
  simpl. change (foldl _ ?w0 evs) with (run env evs w0).
  rewrite IH; rewrite deliver_settled; done.
Qed.

End Exit.

(** C7. When [browser.close()] rejects in the exit handler, the handler
    still completes normally: the error is logged with [console.error],
    then the server is closed and the promise of [runTests] settled. *)
Theorem exit_handler_survives_close_failure
    (env : Env) (code : Z) (e : JsError) (w : World) :
  rejects env OpBrowserClose = Some e →
  fst (codeAutomationExit env code w) = Normal tt
  ∧ calls (snd (codeAutomationExit env code w))
    = calls w
      ++ [CBrowserClose;
          CConsole ConsoleError
            ["Error when closing browser: " +:+ error_toString e];
          CServerClose]
  ∧ server (snd (codeAutomationExit env code w)) ≠ Live
  ∧ (server w = Live → server (snd (codeAutomationExit env code w)) = Closed)
  ∧ promise (snd (codeAutomationExit env code w)) ≠ Pending
  ∧ (promise w = Pending →
     promise (snd (codeAutomationExit env code w))
     = if code =? 0 then Fulfilled else Rejected (Error "Test failed")).
Proof.
  intros He.
  unfold codeAutomationExit, try_catch, browser_close, server_close, settle,
    bind, await, effect, log_call, set_server, set_browser.
  rewrite He. simpl.
  destruct (server w); simpl; destruct (code =? 0); simpl;
    destruct (promise w); simpl; rewrite <- ?app_assoc; simpl;
    repeat split; done.
Qed.

(** The page calls [codeAutomationExit(3)] in a session where closing the
    browser rejects. *)
Lemma exit_handler_survives_close_failure_witness :
  let w := runTests env_close_fails options_test initial in
  rejects env_close_fails OpBrowserClose = Some (Error "Target closed")
  ∧ deliver env_close_fails (CallExit 3) w
    = snd (codeAutomationExit env_close_fails 3 w)
  ∧ fst (codeAutomationExit env_close_fails 3 w) = Normal tt
  ∧ server (snd (codeAutomationExit env_close_fails 3 w)) = Closed
  ∧ promise (snd (codeAutomationExit env_close_fails 3 w))
    = Rejected (Error "Test failed").
Proof.
  intros w. split; [reflexivity|]. split; [reflexivity|].
  pose proof (exit_handler_survives_close_failure env_close_fails 3
                (Error "Target closed") w eq_refl)
    as (Hn & _ & _ & Hs & _ & Hp).
  split; [exact Hn|]. split; [exact (Hs eq_refl)|exact (Hp eq_refl)].
Defined.

(** The session of [env_ok] and [options_test] has its bridge installed. *)
Lemma session_test_up :
  "codeAutomationExit" ∈ exposed (runTests env_ok options_test initial).
Proof. apply list_elem_of_lookup. by exists 1%nat. Qed.

(** C1, as the code has it.  In a session of [runTests] whose bridge is
    installed, the first exit call settles the promise: it is fulfilled
    exactly when the code is 0, and for every other code it is rejected
    with the one error [Error('Test failed')], whatever the code. *)
Theorem exit_code_decides_outcome
    (env : Env) (options : Options) (evs : list Event) (code : Z) :
  "codeAutomationExit" ∈ exposed (runTests env options initial) →
  Forall (fun ev => is_exit ev = false) evs →
  (promise (run env (evs ++ [CallExit code]) (runTests env options initial))
   = Fulfilled ↔ code = 0)
  ∧ (code ≠ 0 →
     promise (run env (evs ++ [CallExit code]) (runTests env options initial))
     = Rejected (Error "Test failed")).
Proof.
  intros Hup Hevs.
  destruct (runTests_ready env options _ eq_refl Hup) as (_ & _ & _ & Hp).
  rewrite run_app. simpl.
  rewrite bool_decide_eq_true_2 by by rewrite run_exposed.
  rewrite codeAutomationExit_promise, run_promise, Hp by done.
  by destruct (Z.eqb_spec code 0) as [->|Hne].
Qed.

(** Two log calls, then [codeAutomationExit(0)]; and [codeAutomationExit(1)]. *)
Lemma exit_code_decides_outcome_witness :
  promise (run env_ok
             ([CallLog ConsoleInfo ["ok"]; CallLog ConsoleInfo ["ok"]]
              ++ [CallExit 0])
             (runTests env_ok options_test initial))
  = Fulfilled
  ∧ promise (run env_ok ([] ++ [CallExit 1])
               (runTests env_ok options_test initial))
    = Rejected (Error "Test failed").
Proof.
  split.
  - apply (exit_code_decides_outcome env_ok options_test
             [CallLog ConsoleInfo ["ok"]; CallLog ConsoleInfo ["ok"]] 0).
    + exact session_test_up.
    + repeat constructor.
    + reflexivity.
  - apply (exit_code_decides_outcome env_ok options_test [] 1); [| |done].
    + exact session_test_up.
    + constructor.
Defined.

(** C1, as stated, fails: exit codes 1 and 2 reject the promise with the
    same error, so no exit code can be read off the failure. *)
Lemma exit_code_not_carried :
  ¬ ∃ exitCode : JsError -> Z,
      ∀ n, n ≠ 0 →
        ∃ reason,
          promise (run env_ok [CallExit n]
                     (runTests env_ok options_test initial))
          = Rejected reason
          ∧ exitCode reason = n.
Proof.
  intros (exitCode & H).
  destruct (H 1 ltac:(done)) as (r1 & E1 & C1).
  destruct (H 2 ltac:(done)) as (r2 & E2 & C2).
  vm_compute in E1, E2.
  injection E1 as <-. injection E2 as <-. congruence.
Qed.

(** C3. Once an exit call has settled the promise of [runTests], the
    outcome is final: whatever is delivered afterwards, further exit calls
    with any code included, the promise stays as that first call left
    it. *)
Theorem exit_outcome_is_final
    (env : Env) (options : Options) (evs later : list Event) (code : Z) :
  "codeAutomationExit" ∈ exposed (runTests env options initial) →
  promise (run env (evs ++ [CallExit code]) (runTests env options initial))
  ≠ Pending
  ∧ promise
      (run env later
         (run env (evs ++ [CallExit code]) (runTests env options initial)))
    = promise
        (run env (evs ++ [CallExit code]) (runTests env options initial)).
Proof.
  intros Hup.
  assert (promise
            (run env (evs ++ [CallExit code]) (runTests env options initial))
          ≠ Pending) as Hsettled.
  { rewrite run_app. simpl.
    rewrite bool_decide_eq_true_2 by by rewrite run_exposed.
    rewrite codeAutomationExit_promise.
    destruct (promise (run env evs _)); [|done..].
    by destruct (code =? 0). }
  split; [exact Hsettled|]. by apply run_settled.
Qed.

(** [codeAutomationExit(0)], then [codeAutomationExit(1)]: still
    fulfilled. *)
Lemma exit_outcome_is_final_witness :
  promise (run env_ok [CallExit 1]
             (run env_ok ([] ++ [CallExit 0])
                (runTests env_ok options_test initial)))
  = Fulfilled.
Proof.
  pose proof (exit_outcome_is_final env_ok options_test [] [CallExit 1] 0)
    as H.
  destruct H as [_ H].
  - exact session_test_up.
  - rewrite H. reflexivity.
Defined.

(** ** Failure of a start-up step *)

Lemma bind_normal {A B} (m : Js A) (k : A -> Js B) (w w' : World) (b : B) :
  bind m k w = (Normal b, w') →
  ∃ a w1, m w = (Normal a, w1) ∧ k a w1 = (Normal b, w').
Proof.
  unfold bind. destruct (m w) as [[a|e] w1]; [|done]. intros H.
  by exists a, w1.
Qed.

Lemma deliver_promise_without_exit (env : Env) (ev : Event) (w : World) :
  "codeAutomationExit" ∉ exposed w → promise (deliver env ev w) = promise w.
Proof.
  intros Hno. destruct (is_exit ev) eqn:E; [|by apply deliver_promise].
  destruct ev; try done. simpl. by rewrite bool_decide_eq_false_2.
Qed.

Lemma run_promise_without_exit (env : Env) (evs : list Event) (w : World) :
  "codeAutomationExit" ∉ exposed w → promise (run env evs w) = promise w.
Proof.
  revert w. induction evs as [|ev evs IH]; intros w Hno; [done|].
  simpl. change (foldl _ ?w0 evs) with (run env evs w0).
  rewrite IH by by rewrite deliver_exposed.
  by apply deliver_promise_without_exit.
Qed.

Lemma bind_throw {A B} (m : Js A) (k : A -> Js B) (w w' : World)
    (e : JsError) :
  bind m k w = (Throw e, w') →
  m w = (Throw e, w') ∨ ∃ a w1, m w = (Normal a, w1) ∧ k a w1 = (Throw e, w').
Proof.
  unfold bind. destruct (m w) as [[a|e0] w1]; intros H.
  - right. by exists a, w1.
  - left. by injection H as -> ->.
Qed.

Lemma startup_call_not_close (env : Env) (options : Options) (c : Call) :
  startup_call env options c → is_close c = false.
Proof.
  unfold startup_call.
  destruct c; simpl; intros H; try reflexivity; by destruct H as [H|[H|H]].
Qed.

Lemma start_call_not_close (options : Options) (c : Call) :
  start_call options c → is_close c = false.
Proof. by destruct c. Qed.

Lemma executor_call_not_close (env : Env) (options : Options) (c : Call) :
  executor_call env options c → is_close c = false.
Proof.
  unfold executor_call.
  destruct c; simpl; intros H; try reflexivity; by destruct H as [H|[H|H]].
Qed.

Lemma start_call_op (options : Options) (c : Call) (op : Op) :
  start_call options c → call_op c = Some op → is_start_op op = true.
Proof. destruct c; simpl; try done; by intros _ [= <-]. Qed.

Lemma executor_call_op
    (env : Env) (options : Options) (c : Call) (op : Op) :
  executor_call env options c → call_op c = Some op →
  is_start_op op = false.
Proof.
  unfold executor_call.
  destruct c; simpl; intros H; try done; try (by intros [= <-]);
    by destruct H as [H|[H|H]].
Qed.

Lemma acquires_unclosed (w : World) :
  acquires initial w → server w ≠ Closed ∧ browser w ≠ Closed.
Proof.
  intros ([->| ->] & [->| ->] & _); simpl; split; discriminate.
Qed.

(** The calls of the executor of [runTests]. *)
Lemma protocol_executor (env : Env) (options : Options) :
  protocol env (executor_call env options)
    (runTests_executor env options
       (default "localhost" (host options)) (default 3000 (port options))).
Proof.
  unfold runTests_executor. apply protocol_bind.
  { eapply protocol_weaken; [|apply protocol_openBrowser].
    intros c Hc. left. exact Hc. }
  intros _. apply protocol_bind.
  { unfold once_context_close.
    apply protocol_bind; [|intros _; by apply protocol_effect].
    apply protocol_log; [|done]. right. by left. }
  intros _. apply protocol_bind; [|intros _];
    apply protocol_exposeFunction; right; by right.
Qed.

(** A failed server start has opened nothing. *)
Lemma runTests_start_failed
    (env : Env) (options : Options) (w w' : World) (e : JsError) :
  runTests_start env options w = (Throw e, w') →
  forget_calls w' = forget_calls w.
Proof.
  unfold runTests_start. intros H.
  pose proof (getBuild_frame env options w) as Hb.
  apply bind_throw in H as [H|(build & w1 & Hg & H)].
  - rewrite H in Hb. exact Hb.
  - rewrite Hg in Hb. simpl in Hb. rewrite <- Hb.
    apply bind_throw in H as [H|([] & w2 & _ & H)]; [|done].
    by apply runServer_failed in H.
Qed.

(** A completed server start leaves the server live and nothing
    installed. *)
Lemma runTests_start_completed
    (env : Env) (options : Options) (w w' : World) (h : string) (p : Z) :
  runTests_start env options w = (Normal (h, p), w') →
  server w' = Live ∧ exposed w' = exposed w.
Proof.
  unfold runTests_start. intros H.
  pose proof (getBuild_frame env options w) as Hb.
  apply bind_normal in H as (build & w1 & Hg & H).
  rewrite Hg in Hb. simpl in Hb.
  apply bind_normal in H as ([] & w2 & Hrun & Hret).
  apply runServer_completed in Hrun as [Hlive Hf].
  unfold ret in Hret. injection Hret as _ _ <-. split; [done|].
  apply (f_equal exposed) in Hf, Hb. simpl in *. congruence.
Qed.

(** The bridge is complete exactly when the executor has completed. *)
Lemma runTests_executor_bridge
    (env : Env) (options : Options) (h : string) (p : Z) (w : World) :
  exposed w = [] →
  match runTests_executor env options h p w with
  | (Normal _, w') => "codeAutomationExit" ∈ exposed w'
  | (Throw _, w') => "codeAutomationExit" ∉ exposed w'
  end.
Proof.
  intros Hx. unfold runTests_executor, bind at 1.
  pose proof (openBrowser_exposes_nothing env
                ("http://" +:+ h +:+ ":" +:+ pretty p) options w Hx) as Hx3.
  destruct (openBrowser env ("http://" +:+ h +:+ ":" +:+ pretty p) options w)
    as [[[]|e] w3]; simpl in Hx3.
  2:{ rewrite Hx3. by intros ?%elem_of_nil. }
  unfold once_context_close, exposeFunction, bind, await, effect.
  destruct (rejects env (OpExposeFunction "codeAutomationLog")); simpl.
  { rewrite Hx3. by intros ?%elem_of_nil. }
  destruct (rejects env (OpExposeFunction "codeAutomationExit")); simpl.
  { rewrite Hx3. simpl. intros [?|?%elem_of_nil]%elem_of_cons; done. }
  rewrite Hx3. simpl. apply elem_of_cons. right. by apply elem_of_cons; left.
Qed.

(** *** The un-awaited [context.grantPermissions] *)

Section Grant.

Variables env env' : Env.
Hypothesis Hsame : same_but_grant env env'.

Lemma same_run_refl {A} (m : Js A) : same_run m m.
Proof. by intros w. Qed.

Lemma same_run_bind {A B} (m m' : Js A) (k k' : A -> Js B) :
  same_run m m' → (∀ a, same_run (k a) (k' a)) →
  same_run (bind m k) (bind m' k').
Proof.
  intros Hm Hk w. unfold bind. rewrite Hm.
  destruct (m' w) as [[a|e] w1]; [apply Hk|done].
Qed.

Lemma same_run_await (c : Call) (op : Op) :
  op ≠ OpGrantPermissions → same_run (await env c op) (await env' c op).
Proof.
  intros Hop w. unfold await.
  destruct Hsame as (_ & _ & Hr). by rewrite (Hr op Hop).
Qed.

(** Whether the promise of [grantPermissions] rejects or not, the call is
    made and [openBrowser] goes on. *)
Lemma same_run_grantPermissions (ps : list string) :
  same_run
    (not_awaited (await env (CGrantPermissions ps) OpGrantPermissions))
    (not_awaited (await env' (CGrantPermissions ps) OpGrantPermissions)).
Proof.
  intros w. unfold not_awaited, await.
  by destruct (rejects env OpGrantPermissions),
       (rejects env' OpGrantPermissions).
Qed.

Lemma launch_args_same (options : Options) :
  launch_args env options = launch_args env' options.
Proof.
  unfold launch_args. destruct Hsame as (Hp & _). by rewrite Hp.
Qed.

Lemma same_run_openBrowser (endpoint : string) (options : Options) :
  same_run (openBrowser env endpoint options)
    (openBrowser env' endpoint options).
Proof.
  unfold openBrowser, newContext, newPage. rewrite launch_args_same.
  repeat (apply same_run_bind; [|intros ?]);
    try (by apply same_run_await); try apply same_run_refl.
  - destruct (permissions options);
      [apply same_run_grantPermissions|apply same_run_refl].
  - intros w. destruct (pages w); [|done].
    apply same_run_bind; [by apply same_run_await|].
    intros ?. apply same_run_refl.
  - destruct (waitForDebugger options) as [n|]; [|apply same_run_refl].
    destruct (number_truthy n); [by apply same_run_await|].
    apply same_run_refl.
Qed.

Lemma same_run_getBuild (options : Options) :
  same_run (getBuild env options) (getBuild env' options).
Proof.
  unfold getBuild, downloadAndUnzipVSCode.
  destruct (truthy (vsCodeDevPath options)); [apply same_run_refl|].
  destruct Hsame as (_ & -> & _).
  apply same_run_bind; [by apply same_run_await|].
  intros ?. apply same_run_refl.
Qed.

Lemma same_run_runServer (h : string) (p : Z) (config : IConfig) :
  same_run (runServer env h p config) (runServer env' h p config).
Proof.
  unfold runServer. apply same_run_bind; [by apply same_run_await|].
  intros ?. apply same_run_refl.
Qed.

Lemma same_run_open (options : Options) :
  same_run (open env options) (open env' options).
Proof.
  unfold open.
  apply same_run_bind; [apply same_run_getBuild|intros build].
  apply same_run_bind; [apply same_run_runServer|intros _].
  apply same_run_bind; [apply same_run_openBrowser|intros _].
  apply same_run_refl.
Qed.

Lemma same_run_runTests (options : Options) (w : World) :
  runTests env options w = runTests env' options w.
Proof.
  assert (same_run (runTests_start env options)
            (runTests_start env' options)) as Hstart.
  { unfold runTests_start.
    apply same_run_bind; [apply same_run_getBuild|intros build].
    apply same_run_bind; [apply same_run_runServer|intros _].
    apply same_run_refl. }
  assert (∀ h p, same_run (runTests_executor env options h p)
                   (runTests_executor env' options h p)) as Hexec.
  { intros h p. unfold runTests_executor, exposeFunction.
    apply same_run_bind; [apply same_run_openBrowser|intros _].
    apply same_run_bind; [apply same_run_refl|intros _].
    apply same_run_bind; [|intros _];
      (apply same_run_bind; [by apply same_run_await|]);
      intros ?; apply same_run_refl. }
  unfold runTests. rewrite Hstart.
  destruct (runTests_start env' options w) as [[[h p]|e] w1]; [|done].
  by rewrite Hexec.
Qed.

End Grant.




(** ** Disposal *)

Section Dispose.

Variable env : Env.

Ltac dispose_cases w :=
  unfold dispose, not_awaited, browser_close, server_close, bind, await,
    effect, forget_calls, log_call, set_server, set_browser;
  destruct (rejects env OpBrowserClose); simpl;
  destruct (browser w); simpl; destruct (server w); simpl.

(** [dispose] never throws. *)
Lemma dispose_normal (w : World) : fst (dispose env w) = Normal tt.
Proof. dispose_cases w; reflexivity. Qed.

(** [dispose] leaves the server closed if it was ever started. *)
Lemma dispose_closes_server (w : World) :
  server w ≠ Absent → server (snd (dispose env w)) = Closed.
Proof. dispose_cases w; done. Qed.

(** [dispose] leaves the browser closed if it was ever launched, unless
    [browser.close()] itself rejects. *)
Lemma dispose_closes_browser (w : World) :
  rejects env OpBrowserClose = None → browser w ≠ Absent →
  browser (snd (dispose env w)) = Closed.
Proof. intros He. dispose_cases w; done. Qed.

(** After a [dispose] the server is not live, and the browser is not live
    unless [browser.close()] rejects. *)
Lemma dispose_result (w : World) :
  server (snd (dispose env w)) ≠ Live
  ∧ (browser (snd (dispose env w)) ≠ Live
     ∨ rejects env OpBrowserClose ≠ None).
Proof. dispose_cases w; split; try done; (by left) || (by right). Qed.

(** On such handles [dispose] changes nothing but the log. *)
Lemma dispose_settled (w : World) :
  server w ≠ Live →
  browser w ≠ Live ∨ rejects env OpBrowserClose ≠ None →
  forget_calls (snd (dispose env w)) = forget_calls w.
Proof.
  intros Hs Hb. revert Hs Hb. dispose_cases w; try done; by intros ? [?|?].
Qed.

(** A second [dispose] changes nothing but the log. *)
Lemma dispose_twice (w : World) :
  forget_calls (snd (dispose env (snd (dispose env w))))
  = forget_calls (snd (dispose env w)).
Proof.
  destruct (dispose_result w) as [Hs Hb]. by apply dispose_settled.
Qed.

(** Neither does a [dispose] of handles that are closed already. *)
Lemma dispose_closed (w : World) :
  server w = Closed → browser w = Closed →
  forget_calls (snd (dispose env w)) = forget_calls w.
Proof.
  intros Hs Hb. apply dispose_settled; [by rewrite Hs|left; by rewrite Hb].
Qed.

(** Once acquired, a handle is live or closed. *)
Lemma deliver_handles (ev : Event) (w : World) :
  server w ≠ Absent ∧ browser w ≠ Absent →
  server (deliver env ev w) ≠ Absent ∧ browser (deliver env ev w) ≠ Absent.
Proof.
  intros [Hs Hb]. destruct ev as [|page| | |code]; simpl.
  - by destruct (page_listener w).
  - case_bool_decide; [|done].
    unfold on_page_close, not_awaited, browser_close, bind, await, effect.
    simpl. destruct (_ =? 0); [|done].
    destruct (rejects env OpBrowserClose); simpl; [done|].
    destruct (browser w) eqn:E; simpl; rewrite ?E; done.
  - destruct (once_close w); [|done]. unfold server_close. simpl.
    destruct (server w) eqn:E; simpl; rewrite ?E; done.
  - by case_bool_decide.
  - case_bool_decide; [|done].
    unfold codeAutomationExit, try_catch, browser_close, server_close,
      settle, bind, await, effect, log_call, set_server, set_browser.
    destruct (rejects env OpBrowserClose); simpl;
      destruct (browser w); simpl; destruct (server w); simpl;
      destruct (code =? 0); simpl; destruct (promise w); simpl; done.
Qed.

Lemma run_handles (evs : list Event) (w : World) :
  server w ≠ Absent ∧ browser w ≠ Absent →
  server (run env evs w) ≠ Absent ∧ browser (run env evs w) ≠ Absent.
Proof.
  revert w. induction evs as [|ev evs IH]; intros w Hw; [done|].
  simpl. change (foldl _ ?w0 evs) with (run env evs w0).
  by apply IH, deliver_handles.
Qed.

End Dispose.

(** C6. In an interactive session, whatever has happened before,
    [dispose] does not throw and leaves the server closed and, unless
    [browser.close()] itself rejects, the browser closed; a second [dispose]
    does not throw either and changes nothing: both handles are closed
    already, so its two close calls have no effect.  The same holds for a
    first [dispose] after the browser and the server have closed by
    themselves. *)
Theorem dispose_closes_and_is_idempotent
    (env : Env) (options : Options) (evs : list Event) :
  fst (open env options initial) = Normal tt →
  let w := run env evs (snd (open env options initial)) in
  let w1 := snd (dispose env w) in
  let w2 := snd (dispose env w1) in
  fst (dispose env w) = Normal tt
  ∧ server w1 = Closed
  ∧ (rejects env OpBrowserClose = None → browser w1 = Closed)
  ∧ fst (dispose env w1) = Normal tt
  ∧ forget_calls w2 = forget_calls w1
  ∧ (server w = Closed → browser w = Closed →
     forget_calls w1 = forget_calls w).
Proof.
  intros Hopen w w1 w2.
  destruct (open env options initial) as [[[]|e] s] eqn:E; [|done].
  apply open_completed in E as (Hs & Hb & _).
  assert (server w ≠ Absent ∧ browser w ≠ Absent) as [Hsw Hbw].
  { apply run_handles. simpl. by rewrite Hs, Hb. }
  split; [apply dispose_normal|].
  split; [by apply dispose_closes_server|].
  split; [intros He; by apply dispose_closes_browser|].
  split; [apply dispose_normal|].
  split; [apply dispose_twice|].
  apply dispose_closed.
Qed.

(** The user closes the only page and the context closes: both handles
    are closed when [dispose] is called, twice. *)
Lemma dispose_closes_and_is_idempotent_witness :
  let w := run env_ok [PageClosed 0; ContextClosed]
             (snd (open env_ok options_interactive initial)) in
  (server w = Closed ∧ browser w = Closed)
  ∧ fst (dispose env_ok w) = Normal tt
  ∧ forget_calls (snd (dispose env_ok w)) = forget_calls w
  ∧ forget_calls (snd (dispose env_ok (snd (dispose env_ok w))))
    = forget_calls (snd (dispose env_ok w)).
Proof.
  intros w.
  assert (server w = Closed ∧ browser w = Closed) as [Hs Hb].
  { split; vm_compute; reflexivity. }
  split; [by split|].
  pose proof (dispose_closes_and_is_idempotent env_ok options_interactive
                [PageClosed 0; ContextClosed] eq_refl)
    as (Hn & _ & _ & _ & Htwice & Hnoop).
  split; [exact Hn|]. split; [exact (Hnoop Hs Hb)|exact Htwice].
Defined.

(** ** The page counter *)

Section Counter.

Variable env : Env.

Lemma count_calls_app (p : Call -> bool) (l1 l2 : list Call) :
  count_calls p (l1 ++ l2) = (count_calls p l1 + count_calls p l2)%nat.
Proof. induction l1 as [|c l1 IH]; simpl; [done|]. rewrite IH. lia. Qed.

Lemma count_calls_none (p : Call -> bool) (l : list Call) :
  Forall (fun c => p c = false) l → count_calls p l = 0%nat.
Proof. induction 1 as [|c l Hc _ IH]; simpl; [done|]. by rewrite Hc, IH. Qed.

(** The close listener of a page, lines 242-247: the counter goes down by
    one, and [browser.close()] is called if and only if that makes it 0. *)
Lemma on_page_close_spec (w : World) :
  openPages (on_page_close env w) = openPages w - 1
  ∧ close_listeners (on_page_close env w) = close_listeners w
  ∧ page_listener (on_page_close env w) = page_listener w
  ∧ next_page (on_page_close env w) = next_page w
  ∧ calls (on_page_close env w)
    = calls w ++ (if openPages w - 1 =? 0 then [CBrowserClose] else []).
Proof.
  unfold on_page_close, not_awaited, browser_close, bind, await, effect.
  simpl. destruct (openPages w - 1 =? 0); simpl.
  - destruct (rejects env OpBrowserClose); simpl; [done|].
    by destruct (browser w).
  - by rewrite app_nil_r.
Qed.

(** A page is created: it is counted and its close listener armed. *)
Lemma deliver_page_created (w : World) :
  tracking w →
  openPages (deliver env PageCreated w) = openPages w + 1
  ∧ calls (deliver env PageCreated w) = calls w
  ∧ tracking (deliver env PageCreated w).
Proof.
  intros (Hl & Hc & Hfresh). simpl. rewrite Hl. simpl.
  split; [done|]. split; [done|]. split; [done|]. simpl. split.
  - rewrite size_union, size_singleton; [lia|].
    apply disjoint_singleton_l. intros Hin. apply Hfresh in Hin. lia.
  - intros p [Hp|Hp]%elem_of_union.
    + apply elem_of_singleton in Hp. lia.
    + apply Hfresh in Hp. lia.
Qed.

(** A counted page is closed: the counter, which was positive, goes down
    by one, and [browser.close()] is called if and only if it is now 0. *)
Lemma deliver_page_closed (page : nat) (w : World) :
  tracking w → page ∈ close_listeners w →
  0 < openPages w
  ∧ openPages (deliver env (PageClosed page) w) = openPages w - 1
  ∧ calls (deliver env (PageClosed page) w)
    = calls w ++ (if openPages w - 1 =? 0 then [CBrowserClose] else [])
  ∧ tracking (deliver env (PageClosed page) w).
Proof.
  intros (Hl & Hc & Hfresh) Hin. simpl.
  rewrite bool_decide_eq_true_2 by done.
  match goal with |- context [on_page_close env ?w0] =>
    destruct (on_page_close_spec w0) as (Ho & Hcl & Hpl & Hn & Hcalls)
  end.
  simpl in *.
  assert (1 ≤ size (close_listeners w))%nat as Hpos.
  { rewrite <- (size_singleton (C := gset nat) page).
    apply subseteq_size. by apply singleton_subseteq_l. }
  split; [lia|]. split; [done|]. split; [done|].
  unfold tracking. rewrite Hpl, Hcl, Ho, Hn. split; [done|]. split.
  - rewrite size_difference by by apply singleton_subseteq_l.
    rewrite size_singleton. lia.
  - intros p [Hp _]%elem_of_difference. by apply Hfresh.
Qed.

(** The close of a page that is not counted changes nothing but the list
    of pages. *)
Lemma deliver_page_unknown (page : nat) (w : World) :
  page ∉ close_listeners w →
  deliver env (PageClosed page) w
  = set_pages (filter (λ q, q ≠ page) (pages w)) (next_page w) w.
Proof. intros Hin. simpl. by rewrite bool_decide_eq_false_2. Qed.

Lemma closings_step (ev : Event) (w : World) :
  tracking w → is_page_event ev = true →
  tracking (deliver env ev w)
  ∧ closings (deliver env ev w)
    = (closings w
       + if negb (openPages w =? 0)%Z
            && (openPages (deliver env ev w) =? 0)%Z
         then 1 else 0)%nat.
Proof.
  intros Ht Hev. destruct ev as [|page| | |]; try done.
  - destruct (deliver_page_created w Ht) as (Ho & Hc & Ht').
    split; [done|]. unfold closings. rewrite Hc, Ho.
    destruct Ht as (_ & Hsize & _).
    replace (openPages w + 1 =? 0) with false by lia.
    rewrite andb_false_r. lia.
  - destruct (decide (page ∈ close_listeners w)) as [Hin|Hnot].
    + destruct (deliver_page_closed page w Ht Hin) as (Hpos & Ho & Hc & Ht').
      split; [done|]. unfold closings. rewrite Hc, Ho, count_calls_app.
      replace (openPages w =? 0) with false by lia. simpl.
      by destruct (openPages w - 1 =? 0).
    + rewrite deliver_page_unknown by done. split; [done|].
      unfold closings. simpl.
      destruct (openPages w =? 0); simpl; lia.
Qed.

(** [browser.close()] is called once each time the counter reaches zero,
    and at no other time. *)
Lemma closings_run (evs : list Event) (w : World) :
  tracking w → Forall (fun ev => is_page_event ev = true) evs →
  tracking (run env evs w)
  ∧ closings (run env evs w) = (closings w + zero_hits env evs w)%nat.
Proof.
  intros Ht Hevs. revert w Ht.
  induction Hevs as [|ev evs Hev _ IH]; intros w Ht; simpl.
  - split; [done|lia].
  - change (foldl _ ?w0 evs) with (run env evs w0).
    destruct (closings_step ev w Ht Hev) as [Ht' Hc].
    destruct (IH _ Ht') as [Ht'' Hc'].
    split; [done|]. rewrite Hc', Hc. lia.
Qed.

Lemma list_to_set_remove (page : nat) (l : list nat) :
  list_to_set (C := gset nat) (filter (λ q, q ≠ page) l)
  = list_to_set l ∖ {[page]}.
Proof.
  apply set_eq. intros x.
  rewrite elem_of_difference, !elem_of_list_to_set, list_elem_of_filter,
    elem_of_singleton.
  tauto.
Qed.

Lemma on_page_close_pages (w : World) :
  pages (on_page_close env w) = pages w.
Proof.
  unfold on_page_close, not_awaited, browser_close, bind, await, effect.
  simpl. destruct (openPages w - 1 =? 0); simpl; [|done].
  destruct (rejects env OpBrowserClose); simpl; [done|].
  by destruct (browser w).
Qed.

(** The counter is the number of pages of the context. *)
Lemma counting_openPages (w : World) :
  counting w → openPages w = Z.of_nat (length (pages w)).
Proof.
  intros ((_ & Ho & _) & Hnd & Hcl).
  by rewrite Ho, Hcl, size_list_to_set.
Qed.

(** A page of the context is created: it joins [context.pages()] and has
    its close listener armed. *)
Lemma deliver_created_counting (w : World) :
  counting w →
  pages (deliver env PageCreated w) = pages w ++ [next_page w]
  ∧ counting (deliver env PageCreated w).
Proof.
  intros (Ht & Hnd & Hcl).
  destruct (deliver_page_created w Ht) as (_ & _ & Ht').
  destruct Ht as (Hl & _ & Hfresh).
  assert (pages (deliver env PageCreated w) = pages w ++ [next_page w]
          ∧ close_listeners (deliver env PageCreated w)
            = {[next_page w]} ∪ close_listeners w) as [Hp Hc].
  { simpl. by rewrite Hl. }
  split; [done|]. split; [done|]. rewrite Hp, Hc. split.
  - apply NoDup_app. split; [done|]. split; [|apply NoDup_singleton].
    intros x Hx Hin. apply list_elem_of_singleton in Hin as ->.
    apply (elem_of_list_to_set (C := gset nat)) in Hx.
    rewrite <- Hcl in Hx. apply Hfresh in Hx. lia.
  - rewrite list_to_set_snoc_L, Hcl. apply (comm_L (∪)).
Qed.

(** A page is closed: it leaves [context.pages()], and its close listener
    has run if it was one of them. *)
Lemma deliver_closed_counting (page : nat) (w : World) :
  counting w →
  pages (deliver env (PageClosed page) w)
  = filter (λ q, q ≠ page) (pages w)
  ∧ counting (deliver env (PageClosed page) w).
Proof.
  intros (Ht & Hnd & Hcl).
  destruct (decide (page ∈ close_listeners w)) as [Hin|Hnot].
  - destruct (deliver_page_closed page w Ht Hin) as (_ & _ & _ & Ht').
    assert (pages (deliver env (PageClosed page) w)
            = filter (λ q, q ≠ page) (pages w)
            ∧ close_listeners (deliver env (PageClosed page) w)
              = close_listeners w ∖ {[page]}) as [Hp Hc].
    { simpl. rewrite bool_decide_eq_true_2 by done.
      rewrite on_page_close_pages.
      match goal with |- context [on_page_close env ?w0] =>
        destruct (on_page_close_spec w0) as (_ & -> & _)
      end.
      done. }
    split; [done|]. split; [done|]. rewrite Hp, Hc.
    split; [by apply NoDup_filter|].
    by rewrite list_to_set_remove, Hcl.
  - rewrite deliver_page_unknown by done. simpl.
    split; [done|]. split; [done|]. simpl.
    split; [by apply NoDup_filter|].
    rewrite list_to_set_remove, <- Hcl.
    apply set_eq. intros x.
    rewrite elem_of_difference, elem_of_singleton.
    split; [|tauto]. intros Hx. split; [done|]. by intros ->.
Qed.

Lemma deliver_counting (ev : Event) (w : World) :
  counting w → is_page_event ev = true → counting (deliver env ev w).
Proof.
  intros Hw Hev. destruct ev as [|page| | |]; try done.
  - by apply deliver_created_counting.
  - by apply deliver_closed_counting.
Qed.

Lemma run_counting (evs : list Event) (w : World) :
  counting w → Forall (fun ev => is_page_event ev = true) evs →
  counting (run env evs w).
Proof.
  intros Hw Hevs. revert w Hw.
  induction Hevs as [|ev evs Hev _ IH]; intros w Hw; [done|].
  simpl. change (foldl _ ?w0 evs) with (run env evs w0).
  by apply IH, deliver_counting.
Qed.

End Counter.

Lemma startup_call_not_browser_close
    (env : Env) (options : Options) (c : Call) :
  startup_call env options c ∨ is_expose c = true →
  is_browser_close c = false.
Proof.
  unfold startup_call.
  destruct c; simpl; intros H; try reflexivity;
    by destruct H as [[H|[H|H]]|H].
Qed.

(** A session that is up has made no close call, has both handles live
    and counts its first page. *)
Lemma session_up (env : Env) (options : Options) (s : World) :
  open env options initial = (Normal tt, s)
  ∨ (runTests env options initial = s ∧ "codeAutomationExit" ∈ exposed s) →
  counting s ∧ closings s = 0%nat ∧ server s = Live ∧ browser s = Live
  ∧ pages s = [0%nat].
Proof.
  intros [E|[E Hup]].
  - pose proof (protocol_calls env _ _ initial (protocol_open env options))
      as (l & Hl & Pl).
    rewrite E in Hl. simpl in Hl.
    apply open_completed in E as (Hs & Hb & [Ht Hfirst] & _).
    split; [done|]. split; [|done].
    unfold closings. rewrite Hl. apply count_calls_none.
    eapply Forall_impl; [exact Pl|].
    intros c Hc. apply (startup_call_not_browser_close env options). by left.
  - destruct (runTests_calls env options initial) as (l & Hl & Pl).
    rewrite E in Hl. simpl in Hl.
    destruct (runTests_ready env options s E Hup)
      as (Hs & Hb & [Ht Hfirst] & _).
    split; [done|]. split; [|done].
    unfold closings. rewrite Hl. apply count_calls_none.
    eapply Forall_impl; [exact Pl|].
    apply startup_call_not_browser_close.
Qed.

(** C4. In a session that is up, along any sequence of page creations and
    page closes, the counter is the number of pages of the context, and
    [browser.close()] has been called once for each time the counter
    reached zero, and not otherwise.  At each step, the creation of a page
    adds it to the pages of the context, increments the counter and calls
    no close; the close of any page of the context, the first page and the
    pages created since included, decrements the counter, which was
    positive, and calls [browser.close()] exactly once if that makes the
    counter zero and not at all if it stays positive, and the browser is
    then closed unless the close itself rejects; so a page that is created
    and then closed leaves the counter where it was. *)
Theorem browser_closed_when_counter_reaches_zero
    (env : Env) (options : Options) (s : World) (evs : list Event) :
  open env options initial = (Normal tt, s)
  ∨ (runTests env options initial = s ∧ "codeAutomationExit" ∈ exposed s) →
  Forall (fun ev => is_page_event ev = true) evs →
  pages s = [0%nat]
  ∧ openPages s = 1
  ∧ 0 ≤ openPages (run env evs s)
  ∧ openPages (run env evs s) = Z.of_nat (length (pages (run env evs s)))
  ∧ closings (run env evs s) = zero_hits env evs s
  ∧ pages (deliver env PageCreated (run env evs s))
    = pages (run env evs s) ++ [next_page (run env evs s)]
  ∧ openPages (deliver env PageCreated (run env evs s))
    = openPages (run env evs s) + 1
  ∧ closings (deliver env PageCreated (run env evs s))
    = closings (run env evs s)
  ∧ openPages (deliver env (PageClosed (next_page (run env evs s)))
                 (deliver env PageCreated (run env evs s)))
    = openPages (run env evs s)
  ∧ (∀ page, page ∈ pages (run env evs s) →
       0 < openPages (run env evs s)
       ∧ pages (deliver env (PageClosed page) (run env evs s))
         = filter (λ q, q ≠ page) (pages (run env evs s))
       ∧ openPages (deliver env (PageClosed page) (run env evs s))
         = openPages (run env evs s) - 1
       ∧ closings (deliver env (PageClosed page) (run env evs s))
         = (closings (run env evs s)
            + if (openPages (run env evs s) =? 1)%Z then 1 else 0)%nat
       ∧ (openPages (run env evs s) = 1 →
          rejects env OpBrowserClose = None →
          browser (deliver env (PageClosed page) (run env evs s)) = Closed))
  ∧ (∀ ev, is_page_event ev = true →
       0 < openPages (deliver env ev (run env evs s)) →
       closings (deliver env ev (run env evs s)) = closings (run env evs s)).
Proof.
  intros Hup Hevs.
  destruct (session_up env options s Hup) as (Hcs & Hc0 & Hs & Hb & Hfirst).
  pose proof (run_counting env evs s Hcs Hevs) as Hcw.
  destruct (closings_run env evs s (proj1 Hcs) Hevs) as [Htw Hcl].
  assert (server (run env evs s) ≠ Absent ∧ browser (run env evs s) ≠ Absent)
    as [_ Hbw].
  { apply run_handles. by rewrite Hs, Hb. }
  assert (∀ w page, counting w → page ∈ pages w → page ∈ close_listeners w)
    as Harmed.
  { intros w page (_ & _ & ->) Hin. by apply elem_of_list_to_set. }
  split; [done|].
  split; [by rewrite (counting_openPages s Hcs), Hfirst|].
  set (w := run env evs s) in *.
  split; [destruct Htw as (_ & -> & _); lia|].
  split; [by apply counting_openPages|].
  split; [rewrite Hcl, Hc0; done|].
  destruct (deliver_page_created env w Htw) as (Ho & Hcalls & _).
  destruct (deliver_created_counting env w Hcw) as (Hpages & Hcw1).
  split; [done|]. split; [done|].
  split; [unfold closings; by rewrite Hcalls|]. split; [|split].
  - assert (next_page w ∈ close_listeners (deliver env PageCreated w))
      as Hin.
    { apply Harmed; [done|]. rewrite Hpages, elem_of_app. right.
      by apply list_elem_of_singleton. }
    destruct (deliver_page_closed env (next_page w) _ (proj1 Hcw1) Hin)
      as (_ & -> & _).
    rewrite Ho. lia.
  - intros page Hin%(Harmed w page Hcw).
    destruct (deliver_page_closed env page w Htw Hin)
      as (Hpos & Hdec & Hcalls' & _).
    destruct (deliver_closed_counting env page w Hcw) as (Hleft & _).
    split; [done|]. split; [done|]. split; [done|]. split.
    + unfold closings. rewrite Hcalls', count_calls_app.
      replace (openPages w - 1 =? 0) with (openPages w =? 1) by lia.
      by destruct (openPages w =? 1).
    + intros Hone He. simpl. rewrite bool_decide_eq_true_2 by done.
      unfold on_page_close, not_awaited, browser_close, bind, await, effect.
      simpl. rewrite Hone, He. simpl.
      fold w. destruct (browser w) eqn:E; simpl; rewrite ?E; done.
  - intros ev Hev Hpos.
    destruct (closings_step env ev w Htw Hev) as [_ ->].
    replace (openPages (deliver env ev w) =? 0) with false by lia.
    rewrite andb_false_r. lia.
Qed.

(** The interactive session: a second page is opened, the first page is
    closed, then the second: the counter goes 1, 2, 1, 0 and
    [browser.close()] is called once, at the end. *)
Lemma browser_closed_when_counter_reaches_zero_witness :
  let s := snd (open env_ok options_interactive initial) in
  let w := run env_ok [PageCreated; PageClosed 0] s in
  openPages s = 1
  ∧ openPages w = 1
  ∧ closings w = zero_hits env_ok [PageCreated; PageClosed 0] s
  ∧ openPages (deliver env_ok (PageClosed 1) w) = openPages w - 1
  ∧ closings (deliver env_ok (PageClosed 1) w) = (closings w + 1)%nat
  ∧ browser (deliver env_ok (PageClosed 1) w) = Closed.
Proof.
  intros s w.
  assert (Forall (fun ev => is_page_event ev = true)
            [PageCreated; PageClosed 0]) as Hevs by repeat constructor.
  pose proof (browser_closed_when_counter_reaches_zero env_ok
                options_interactive s [PageCreated; PageClosed 0]
                (or_introl eq_refl) Hevs)
    as (_ & Hs1 & _ & _ & Hc & _ & _ & _ & _ & Hclose & _).
  assert (openPages w = 1) as Hone by (vm_compute; reflexivity).
  assert (1%nat ∈ pages w) as Hin.
  { apply list_elem_of_lookup. exists 0%nat. vm_compute. reflexivity. }
  destruct (Hclose 1%nat Hin) as (_ & _ & Hdec & Hcl & Hb).
  split; [exact Hs1|]. split; [exact Hone|]. split; [exact Hc|].
  split; [exact Hdec|].
  split; [|exact (Hb Hone eq_refl)].
  fold w in Hcl. rewrite Hcl, Hone. reflexivity.
Defined.

(** ** More on the start-up *)

(** X1. [getBuild] serves the sources whenever [vsCodeDevPath] is a
    non-empty string, without any download; otherwise it downloads once,
    the channel ['stable'] exactly when [quality], or [version] if no
    quality is given, is ['stable'], and the channel ['insider'] in every
    other case. *)
Theorem getBuild_channel (env : Env) (options : Options) (w : World) :
  (truthy (vsCodeDevPath options) = true →
   ∃ location, vsCodeDevPath options = Some location
               ∧ getBuild env options w = (Normal (Sources location), w))
  ∧ (truthy (vsCodeDevPath options) = false →
     ∃ channel,
       calls (snd (getBuild env options w)) = calls w ++ [CDownload channel]
       ∧ (channel = "stable" ∨ channel = "insider")
       ∧ (channel = "stable"
          ↔ quality options = Some stable
            ∨ (quality options = None ∧ version options = Some "stable"))).
Proof.
  unfold getBuild. split; intros Ht; rewrite Ht.
  - destruct (vsCodeDevPath options) as [location|]; [|done].
    by exists location.
  - unfold downloadAndUnzipVSCode, bind, await, ret.
    eexists. split.
    { destruct (rejects env OpDownload); reflexivity. }
    destruct (quality options) as [[|]|]; simpl.
    + split; [by right|]. split; [done|]. intros [?|[? _]]; done.
    + split; [by left|]. split; [by left|done].
    + unfold js_or. simpl. case_bool_decide as Hv.
      * split; [by left|]. split; [by right|done].
      * split; [by right|]. split; [done|].
        intros [?|[_ Hs]]; [done|]. by rewrite Hs in Hv.
Qed.

(** Sources given, whatever the quality; and no sources, no quality. *)
Lemma getBuild_channel_witness :
  getBuild env_ok options_sources initial
  = (Normal (Sources "/src/vscode"), initial)
  ∧ calls (snd (getBuild env_ok options_test initial))
    = [CDownload "insider"].
Proof.
  split.
  - destruct (getBuild_channel env_ok options_sources initial) as [H _].
    destruct (H eq_refl) as (location & Hl & Hg).
    injection Hl as <-. exact Hg.
  - destruct (getBuild_channel env_ok options_test initial) as [_ H].
    destruct (H eq_refl) as (channel & Hc & [Hs|Hi] & Hiff).
    + exfalso. apply Hiff in Hs as [Hq|[_ Hv]]; discriminate.
    + rewrite Hc, Hi. reflexivity.
Defined.

Lemma session_call_endpoint
    (env : Env) (options : Options) (c : Call) :
  session_call env options c →
  (∀ h p cfg, c = CRunServer h p cfg →
     h = default "localhost" (host options)
     ∧ p = default 3000 (port options))
  ∧ (∀ url, c = CGoto url → url = endpoint_of options).
Proof.
  unfold session_call, startup_call. intros Hc. split.
  - intros h p cfg ->. simpl in Hc.
    by destruct Hc as [[(-> & -> & _)|[[]|[=]]]|[=]].
  - intros url ->. simpl in Hc.
    by destruct Hc as [[[]|[->|[=]]]|[=]].
Qed.

(** X2. The first page is navigated to the very host and port the server
    was started on: in the log of [runTests] and of [open], the URL of any
    navigation is ['http://' + host + ':' + port] for the host and port of
    any server start, which are ['localhost'] and [3000] unless the options
    say otherwise. *)
Theorem navigation_targets_the_server (env : Env) (options : Options) :
  ∀ l, l = calls (runTests env options initial)
       ∨ l = calls (snd (open env options initial)) →
  ∀ h p cfg url, CRunServer h p cfg ∈ l → CGoto url ∈ l →
    url = "http://" +:+ h +:+ ":" +:+ pretty p
    ∧ h = default "localhost" (host options)
    ∧ p = default 3000 (port options).
Proof.
  intros l Hl.
  assert (Forall (session_call env options) l) as Hcalls.
  { destruct Hl as [-> | ->].
    - by destruct (runTests_calls env options initial) as (l & -> & Hl).
    - destruct (protocol_calls env _ _ initial (protocol_open env options))
        as (l & -> & Hl).
      eapply Forall_impl; [exact Hl|]. intros c Hc. by left. }
  intros h p cfg url Hs Hg.
  rewrite Forall_forall in Hcalls.
  destruct (session_call_endpoint env options _ (Hcalls _ Hs)) as [Hserver _].
  destruct (session_call_endpoint env options _ (Hcalls _ Hg)) as [_ Hgoto].
  destruct (Hserver h p cfg eq_refl) as [-> ->].
  by rewrite (Hgoto url eq_refl).
Qed.

(** With the defaults, the server listens on localhost:3000 and the page
    goes to http://localhost:3000. *)
Lemma navigation_targets_the_server_witness :
  ∃ cfg, CRunServer "localhost" 3000 cfg
         ∈ calls (runTests env_ok options_test initial)
         ∧ CGoto "http://localhost:3000"
           ∈ calls (runTests env_ok options_test initial).
Proof.
  assert (∃ cfg, calls (runTests env_ok options_test initial) !! 1%nat
                 = Some (CRunServer "localhost" 3000 cfg)) as [cfg Hs]
    by (eexists; reflexivity).
  assert (∃ url, calls (runTests env_ok options_test initial) !! 7%nat
                 = Some (CGoto url)) as [url Hg]
    by (eexists; reflexivity).
  apply list_elem_of_lookup_2 in Hs, Hg.
  destruct (navigation_targets_the_server env_ok options_test _
              (or_introl eq_refl) _ _ _ _ Hs Hg) as (Hurl & _ & _).
  exists cfg. split; [exact Hs|]. rewrite Hurl in Hg. exact Hg.
Defined.

(** X3. An [openBrowser] that completes has made exactly the calls of
    [openBrowser_calls], in that order: the launch (headless as asked, or by
    default exactly when a test path is set), the new context, the
    permissions if any, the page listener before the first page is created,
    the wait for the debugger if one is asked for, the console listener if
    verbose, then the viewport of 1200 by 800 and, last, the navigation. *)
Theorem openBrowser_call_order
    (env : Env) (endpoint : string) (options : Options) (w w' : World) :
  openBrowser env endpoint options w = (Normal tt, w') →
  calls w' = calls w ++ openBrowser_calls env endpoint options.
Proof.
  unfold openBrowser, openBrowser_calls, newContext, newPage, page_created,
    not_awaited, bind, await, effect, ret.
  destruct (rejects env OpLaunch); [done|].
  destruct (rejects env OpNewContext); [done|].
  assert (∀ o : option bool,
            match o with
            | Some h => h
            | None => bool_decide (extensionTestsPath options ≠ None)
            end
            = default (bool_decide (is_Some (extensionTestsPath options)))
                o) as Hh.
  { intros [h|]; [done|]. simpl. apply bool_decide_ext.
    rewrite <- not_eq_None_Some. done. }
  rewrite Hh.
  (destruct (permissions options);
     [destruct (rejects env OpGrantPermissions)|]); simpl;
    (destruct (rejects env OpNewPage); [done|]);
    (destruct (waitForDebugger options) as [n|];
       [destruct (number_truthy n);
          [destruct (rejects env OpWaitForFunction); [done|]|]|]);
    destruct (verbose options) as [[|]|]; simpl;
    (destruct (rejects env OpSetViewportSize); [done|]);
    (destruct (rejects env OpGoto); [done|]);
    intros [= <-]; simpl; by rewrite <- ?app_assoc.
Qed.

(** The first start-up of the interactive session, on a live server. *)
Lemma openBrowser_call_order_witness :
  calls (snd (openBrowser env_ok "http://localhost:3000"
                options_interactive initial))
  = [CLaunch firefox false [] None; CNewContext; COnPage; CNewPage;
     CSetViewportSize 1200 800; CGoto "http://localhost:3000"].
Proof.
  rewrite (openBrowser_call_order env_ok "http://localhost:3000"
             options_interactive initial
             (snd (openBrowser env_ok "http://localhost:3000"
                     options_interactive initial)) eq_refl).
  reflexivity.
Defined.

(** X4. The launch arguments ask for remote debugging exactly when
    [waitForDebugger] is a truthy number: with no [waitForDebugger], with 0
    and with [NaN] no port is asked for.  The port is written as the
    template literal writes the number: an integer up to 2^53 with all its
    digits, any other number with the text JavaScript gives it, which is
    ['1e+21'] for 1e21. *)
Theorem remote_debugging_port_iff
    (env : Env) (options : Options) (text : string) :
  (∀ n, waitForDebugger options = Some (Integer n) →
        is_safe_integer n = true) →
  "--remote-debugging-port=" +:+ text ∈ launch_args env options
  ↔ (∃ n, waitForDebugger options = Some (Integer n) ∧ n ≠ 0
          ∧ text = pretty n)
    ∨ waitForDebugger options = Some (Inexact text).
Proof.
  intros _. unfold launch_args.
  assert (∀ t, "--remote-debugging-port=" +:+ text
               = "--remote-debugging-port=" +:+ t → text = t) as Hinj.
  { intros t H. by apply (inj (String.append _)) in H. }
  destruct (String.eqb (platform env) "linux"
            && bool_decide (browserType options = chromium));
    destruct (waitForDebugger options) as [[|m|t]|]; simpl;
    try destruct (Z.eqb_spec m 0) as [->|Hm]; simpl;
    rewrite ?elem_of_cons, ?elem_of_nil; split; intros H;
    repeat match goal with
      | H : _ ∨ _ |- _ => destruct H as [H|H]
      | H : ∃ _, _ |- _ => destruct H as (? & H)
      | H : _ ∧ _ |- _ => destruct H as [? H]
      | H : Some _ = Some _ |- _ => injection H as H
      | H : Integer _ = Integer _ |- _ => injection H as H
      | H : Inexact _ = Inexact _ |- _ => injection H as H
      | H : "--remote-debugging-port=" +:+ _ = _ |- _ => apply Hinj in H
      end;
    subst; try done;
    first [ left; eexists; done | by right | by left | by right; left
          | by right; right | idtac ].
Qed.

(** [{ waitForDebugger: 9229 }] asks for port 9229, and [1e21] for port
    1e+21. *)
Lemma remote_debugging_port_iff_witness :
  "--remote-debugging-port=9229"
  ∈ launch_args env_ok (options_debug (Integer 9229))
  ∧ "--remote-debugging-port=1e+21"
    ∈ launch_args env_ok (options_debug (Inexact "1e+21")).
Proof.
  split.
  - apply (remote_debugging_port_iff env_ok (options_debug (Integer 9229))
             "9229").
    + intros n [= <-]. reflexivity.
    + left. exists 9229. done.
  - apply (remote_debugging_port_iff env_ok
             (options_debug (Inexact "1e+21")) "1e+21").
    + intros n [=].
    + by right.
Defined.

(** ** More on a running session *)

(** X5. When the server has started but [openBrowser] or the installation
    of the bridge fails, the promise of [runTests] is never settled:
    it is pending after [runTests] and stays pending whatever the browser
    side does afterwards, and the server is left live. *)
Theorem runTests_pending_without_bridge
    (env : Env) (options : Options) (evs : list Event)
    (h : string) (p : Z) (w1 : World) :
  runTests_start env options initial = (Normal (h, p), w1) →
  "codeAutomationExit" ∉ exposed (runTests env options initial) →
  promise (run env evs (runTests env options initial)) = Pending
  ∧ server (runTests env options initial) = Live.
Proof.
  intros Hstart Hno.
  rewrite run_promise_without_exit by done. clear Hno.
  unfold runTests. rewrite Hstart.
  pose proof (acquires_runTests_start env options initial) as Ha.
  rewrite Hstart in Ha. destruct Ha as (_ & _ & Hp1). simpl in Hp1.
  pose proof (acquires_runTests_executor env options h p w1)
    as (Hs & _ & Hp).
  assert (server w1 = Live) as Hlive.
  { unfold runTests_start in Hstart.
    apply bind_normal in Hstart as (build & w0 & _ & Hstart).
    apply bind_normal in Hstart as ([] & w2 & Hrun & Hret).
    apply runServer_completed in Hrun as [Hrun _].
    unfold ret in Hret. by injection Hret as _ _ <-. }
  split; [by rewrite Hp, Hp1|].
  destruct Hs as [->| ->]; done.
Qed.

(** The browser cannot be launched: the promise stays pending, even if an
    exit call were made. *)
Lemma runTests_pending_without_bridge_witness :
  promise (run env_no_browser [CallExit 0]
             (runTests env_no_browser options_test initial)) = Pending
  ∧ server (runTests env_no_browser options_test initial) = Live.
Proof.
  apply (runTests_pending_without_bridge env_no_browser options_test
           [CallExit 0] "localhost" 3000
           (set_server Live
              (log_call
                 (CRunServer "localhost" 3000
                    {| cfg_extensionDevelopmentPath := None;
                       cfg_extensionTestsPath := Some "/ext/test/index.js";
                       cfg_build := Static "/tmp/vscode-web";
                       cfg_folderUri := None; cfg_folderMountPath := None;
                       cfg_hideServerLog := true;
                       cfg_extensionPaths := None |})
                 (log_call (CDownload "insider") initial)))).
  - reflexivity.
  - intros H. apply list_elem_of_lookup in H as [i H].
    destruct i; discriminate.
Defined.

Lemma codeAutomationExit_closes (env : Env) (code : Z) (w : World) :
  rejects env OpBrowserClose = None →
  server w ≠ Absent → browser w ≠ Absent →
  server (snd (codeAutomationExit env code w)) = Closed
  ∧ browser (snd (codeAutomationExit env code w)) = Closed.
Proof.
  intros He.
  unfold codeAutomationExit, try_catch, browser_close, server_close, settle,
    bind, await, effect, log_call, set_server, set_browser.
  rewrite He. simpl.
  destruct (browser w); simpl; destruct (server w); simpl;
    destruct (code =? 0); simpl; destruct (promise w); simpl; done.
Qed.

(** X6. In a session of [runTests] whose bridge is installed, an exit call
    leaves both the browser and the server closed, whatever the code and
    whatever happened before, unless [browser.close()] itself rejects. *)
Theorem exit_closes_browser_and_server
    (env : Env) (options : Options) (evs : list Event) (code : Z) :
  "codeAutomationExit" ∈ exposed (runTests env options initial) →
  rejects env OpBrowserClose = None →
  browser (run env (evs ++ [CallExit code]) (runTests env options initial))
  = Closed
  ∧ server (run env (evs ++ [CallExit code]) (runTests env options initial))
    = Closed.
Proof.
  intros Hup He.
  destruct (runTests_ready env options _ eq_refl Hup) as (Hs & Hb & _).
  destruct (run_handles env evs (runTests env options initial)) as [Hs' Hb'].
  { by rewrite Hs, Hb. }
  rewrite run_app. simpl.
  rewrite bool_decide_eq_true_2 by by rewrite run_exposed.
  destruct (codeAutomationExit_closes env code _ He Hs' Hb') as [-> ->].
  done.
Qed.

(** The page reports a failure after two log calls. *)
Lemma exit_closes_browser_and_server_witness :
  browser (run env_ok ([CallLog ConsoleInfo ["ok"]] ++ [CallExit 1])
             (runTests env_ok options_test initial)) = Closed
  ∧ server (run env_ok ([CallLog ConsoleInfo ["ok"]] ++ [CallExit 1])
              (runTests env_ok options_test initial)) = Closed.
Proof.
  apply (exit_closes_browser_and_server env_ok options_test
           [CallLog ConsoleInfo ["ok"]] 1 session_test_up eq_refl).
Defined.

Lemma runTests_start_exposed
    (env : Env) (options : Options) (w : World) :
  exposed (snd (runTests_start env options w)) = exposed w.
Proof.
  unfold runTests_start, getBuild, downloadAndUnzipVSCode, runServer, bind,
    await, effect, ret.
  destruct (truthy (vsCodeDevPath options));
    [|destruct (rejects env OpDownload); [done|]];
    by destruct (rejects env OpRunServer).
Qed.

(** A completed [open] has armed the close listener of the context. *)
Lemma open_armed (env : Env) (options : Options) (w : World) :
  open env options initial = (Normal tt, w) → once_close w = true.
Proof.
  unfold open. intros H.
  apply bind_normal in H as (build & w1 & _ & H).
  apply bind_normal in H as ([] & w2 & _ & H).
  apply bind_normal in H as ([] & w3 & _ & H).
  unfold once_context_close, bind, effect in H. by injection H as <-.
Qed.

(** So has a [runTests] whose bridge is installed. *)
Lemma runTests_armed (env : Env) (options : Options) (w : World) :
  runTests env options initial = w →
  "codeAutomationExit" ∈ exposed w → once_close w = true.
Proof.
  unfold runTests.
  pose proof (runTests_start_exposed env options initial) as Hx.
  destruct (runTests_start env options initial) as [[[h p]|e] w1];
    simpl in Hx.
  2:{ intros <-. rewrite exposed_settle, Hx. by intros ?%elem_of_nil. }
  unfold runTests_executor, bind at 1.
  pose proof (openBrowser_exposes_nothing env
                ("http://" +:+ h +:+ ":" +:+ pretty p) options w1 Hx) as Hx2.
  destruct (openBrowser env ("http://" +:+ h +:+ ":" +:+ pretty p) options w1)
    as [[[]|e] w2]; simpl in Hx2.
  2:{ intros <-. simpl. rewrite Hx2. by intros ?%elem_of_nil. }
  unfold once_context_close, exposeFunction, bind, await, effect.
  destruct (rejects env (OpExposeFunction "codeAutomationLog")); simpl.
  { intros <-. simpl. rewrite Hx2. by intros ?%elem_of_nil. }
  destruct (rejects env (OpExposeFunction "codeAutomationExit")); simpl.
  { intros <-. simpl. rewrite Hx2. simpl.
    intros [?|?%elem_of_nil]%elem_of_cons; done. }
  by intros <-.
Qed.

Lemma deliver_server_follows_context (env : Env) (ev : Event) (w : World) :
  server_follows_context w →
  server_follows_context (deliver env ev w)
  ∧ (ev = ContextClosed → server (deliver env ev w) = Closed).
Proof.
  unfold server_follows_context. intros [Hs Ha].
  destruct ev as [|page| | |code]; simpl.
  - split; [|done]. by destruct (page_listener w).
  - split; [|done]. case_bool_decide; [|done].
    unfold on_page_close, not_awaited, browser_close, bind, await, effect.
    simpl. destruct (_ =? 0); [|done].
    destruct (rejects env OpBrowserClose); simpl; [done|].
    by destruct (browser w).
  - destruct (once_close w) eqn:Eo.
    + unfold server_close. simpl.
      destruct (server w) eqn:Es; simpl; rewrite ?Es; split; try done;
        split; try done; by right.
    + destruct Ha as [?|Ha]; [done|]. split; [|done].
      rewrite Eo. split; [done|by right].
  - split; [|done]. by case_bool_decide.
  - split; [|done]. case_bool_decide; [|done].
    unfold codeAutomationExit, try_catch, browser_close, server_close,
      settle, bind, await, effect, log_call, set_server, set_browser.
    destruct (rejects env OpBrowserClose); simpl;
      destruct (browser w); simpl; destruct (server w) eqn:Es; simpl;
      destruct (code =? 0); simpl; destruct (promise w); simpl;
      (split; [done|]); (destruct Ha as [Ha|Ha]; [by left|by right]).
Qed.

Lemma run_server_follows_context (env : Env) (evs : list Event) (w : World) :
  server_follows_context w → server_follows_context (run env evs w).
Proof.
  revert w. induction evs as [|ev evs IH]; intros w Hw; [done|].
  simpl. change (foldl _ ?w0 evs) with (run env evs w0).
  by apply IH, deliver_server_follows_context.
Qed.

(** A closed server stays closed. *)
Lemma deliver_server_closed (env : Env) (ev : Event) (w : World) :
  server w = Closed → server (deliver env ev w) = Closed.
Proof.
  intros Hs. destruct ev as [|page| | |code]; simpl.
  - by destruct (page_listener w).
  - case_bool_decide; [|done].
    unfold on_page_close, not_awaited, browser_close, bind, await, effect.
    simpl. destruct (_ =? 0); [|done].
    destruct (rejects env OpBrowserClose); simpl; [done|].
    by destruct (browser w).
  - destruct (once_close w); [|done]. unfold server_close. simpl.
    by rewrite Hs.
  - by case_bool_decide.
  - case_bool_decide; [|done].
    unfold codeAutomationExit, try_catch, browser_close, server_close,
      settle, bind, await, effect, log_call, set_server, set_browser.
    destruct (rejects env OpBrowserClose); simpl;
      destruct (browser w); simpl; rewrite Hs; simpl;
      destruct (code =? 0); simpl; by destruct (promise w).
Qed.

Lemma run_server_closed (env : Env) (evs : list Event) (w : World) :
  server w = Closed → server (run env evs w) = Closed.
Proof.
  revert w. induction evs as [|ev evs IH]; intros w Hw; [done|].
  simpl. change (foldl _ ?w0 evs) with (run env evs w0).
  by apply IH, deliver_server_closed.
Qed.

(** X7. In a session that is up, the server is closed as soon as the
    context closes, whatever happened before: by the listener armed with
    [context.once('close', ...)] the first time, and closed already on any
    later close of the context.  It stays closed whatever comes after. *)
Theorem server_closed_when_context_closes
    (env : Env) (options : Options) (s : World) (evs later : list Event) :
  open env options initial = (Normal tt, s)
  ∨ (runTests env options initial = s ∧ "codeAutomationExit" ∈ exposed s) →
  server (run env (evs ++ [ContextClosed]) s) = Closed
  ∧ server (run env (evs ++ [ContextClosed] ++ later) s) = Closed.
Proof.
  intros Hup.
  assert (server_follows_context s) as Hs.
  { destruct (session_up env options s Hup) as (_ & _ & Hlive & _).
    split; [by rewrite Hlive|]. left.
    destruct Hup as [Ho|[Ht Hx]];
      [by eapply open_armed|by eapply runTests_armed]. }
  assert (server (run env (evs ++ [ContextClosed]) s) = Closed) as Hclosed.
  { rewrite run_app. simpl.
    change (if once_close ?w then _ else _)
      with (deliver env ContextClosed w).
    apply deliver_server_follows_context; [|done].
    by apply run_server_follows_context. }
  split; [done|].
  rewrite app_assoc, run_app. by apply run_server_closed.
Qed.

(** The user closes the only page of the interactive session; the browser
    is closed by the page listener, and when its context closes, so is the
    server, which stays closed when a page is opened or the context closes
    again. *)
Lemma server_closed_when_context_closes_witness :
  browser (run env_ok ([PageClosed 0] ++ [ContextClosed])
             (snd (open env_ok options_interactive initial))) = Closed
  ∧ server (run env_ok ([PageClosed 0] ++ [ContextClosed])
              (snd (open env_ok options_interactive initial))) = Closed
  ∧ server (run env_ok ([PageClosed 0] ++ [ContextClosed]
                        ++ [PageCreated; ContextClosed])
              (snd (open env_ok options_interactive initial))) = Closed.
Proof.
  split; [vm_compute; reflexivity|].
  apply (server_closed_when_context_closes env_ok options_interactive).
  left. reflexivity.
Defined.

(** X8. Log calls of the page are forwarded to the console of the host one
    for one, with their level and arguments and in their order, and change
    nothing else in the session. *)
Theorem log_calls_are_forwarded
    (env : Env) (w : World) (messages : list (ConsoleType * list string)) :
  "codeAutomationLog" ∈ exposed w →
  calls (run env (map (fun m => CallLog m.1 m.2) messages) w)
  = calls w ++ map (fun m => CConsole m.1 m.2) messages
  ∧ forget_calls (run env (map (fun m => CallLog m.1 m.2) messages) w)
    = forget_calls w.
Proof.
  revert w. induction messages as [|[type args] messages IH]; intros w Hw.
  - simpl. by rewrite app_nil_r.
  - change (run env (map _ ((type, args) :: messages)) w)
      with (run env (map (fun m => CallLog m.1 m.2) messages)
              (deliver env (CallLog type args) w)).
    assert (deliver env (CallLog type args) w
            = log_call (CConsole type args) w) as ->.
    { simpl. by rewrite bool_decide_eq_true_2. }
    destruct (IH (log_call (CConsole type args) w) Hw) as [-> ->].
    simpl. by rewrite <- app_assoc.
Qed.

(** Scenario: a warning, then an information. *)
Lemma log_calls_are_forwarded_witness :
  calls (run env_ok [CallLog ConsoleWarn ["slow"]; CallLog ConsoleInfo ["ok"]]
           (runTests env_ok options_test initial))
  = calls (runTests env_ok options_test initial)
    ++ [CConsole ConsoleWarn ["slow"]; CConsole ConsoleInfo ["ok"]].
Proof.
  apply (log_calls_are_forwarded env_ok (runTests env_ok options_test initial)
           [(ConsoleWarn, ["slow"]); (ConsoleInfo, ["ok"])]).
  apply list_elem_of_lookup. by exists 0%nat.
Defined.

Lemma open_exposes_nothing (env : Env) (options : Options) :
  exposed (snd (open env options initial)) = [].
Proof.
  unfold open, bind at 1.
  pose proof (getBuild_frame env options initial) as Hb.
  destruct (getBuild env options initial) as [[build|e] w1]; simpl in Hb.
  2:{ by apply (f_equal exposed) in Hb. }
  unfold bind at 1.
  match goal with |- context [runServer env ?h ?p ?c w1] =>
    destruct (runServer env h p c w1) as [[[]|e] w2] eqn:E2 end.
  2:{ apply runServer_failed in E2.
      apply (f_equal exposed) in E2, Hb. simpl in *. by rewrite E2. }
  apply runServer_completed in E2 as [_ Hf].
  assert (exposed w2 = []) as Hx2.
  { apply (f_equal exposed) in Hf, Hb. simpl in *. by rewrite Hf. }
  unfold bind at 1.
  match goal with |- context [openBrowser env ?ep options w2] =>
    pose proof (openBrowser_exposes_nothing env ep options w2 Hx2) as Hx3;
    destruct (openBrowser env ep options w2) as [[[]|e] w3] end;
    simpl in Hx3; done.
Qed.

(** X9. An interactive session has no bridge: calls of the page to
    [codeAutomationLog] or [codeAutomationExit] change nothing, so a page
    cannot end a session opened with [open]. *)
Theorem interactive_session_ignores_bridge_calls
    (env : Env) (options : Options) (evs : list Event) :
  Forall (fun ev => is_bridge_call ev = true) evs →
  run env evs (snd (open env options initial))
  = snd (open env options initial).
Proof.
  pose proof (open_exposes_nothing env options) as Hx.
  revert Hx. generalize (snd (open env options initial)). intros w Hx Hevs.
  induction Hevs as [|ev evs Hev _ IH]; [done|].
  simpl. change (foldl _ ?w0 evs) with (run env evs w0).
  destruct ev; try done; simpl; rewrite Hx;
    rewrite bool_decide_eq_false_2 by apply not_elem_of_nil; exact IH.
Qed.

(** The page of an interactive session calls exit. *)
Lemma interactive_session_ignores_bridge_calls_witness :
  run env_ok [CallLog ConsoleInfo ["ok"]; CallExit 0]
    (snd (open env_ok options_interactive initial))
  = snd (open env_ok options_interactive initial).
Proof.
  apply (interactive_session_ignores_bridge_calls env_ok options_interactive).
  repeat constructor.
Defined.

(** ** The validators of the command line *)

Lemma cli_bind_return {A B} (m : Cli A) (k : A -> Cli B)
    (b : B) (out : list string) :
  m ≫= k = Return b out →
  ∃ a o1 o2, m = Return a o1 ∧ k a = Return b o2 ∧ out = o1 ++ o2.
Proof.
  unfold mbind, cli_bind. destruct m as [a o1|code o1]; [|done].
  destruct (k a) as [b' o2|code o2] eqn:E; [|done].
  intros [= <- <-]. by exists a, o1, o2.
Qed.

Lemma cli_bind_exit {A B} (m : Cli A) (k : A -> Cli B)
    (code : option Z) (out : list string) :
  m ≫= k = Exit code out →
  m = Exit code out
  ∨ ∃ a o1 o2, m = Return a o1 ∧ k a = Exit code o2 ∧ out = o1 ++ o2.
Proof.
  unfold mbind, cli_bind.
  destruct m as [a o1|code' o1]; [|intros [= -> ->]; by left].
  destruct (k a) as [b' o2|code' o2] eqn:E; [done|].
  intros [= <- <-]. right. by exists a, o1, o2.
Qed.

Lemma browserType_of_string_Some (s : string) (b : BrowserType) :
  browserType_of_string s = Some b → s = browserType_string b.
Proof.
  unfold browserType_of_string.
  destruct (String.eqb_spec s "chromium") as [->|_]; [by intros [= <-]|].
  destruct (String.eqb_spec s "firefox") as [->|_]; [by intros [= <-]|].
  destruct (String.eqb_spec s "webkit") as [->|_]; [by intros [= <-]|done].
Qed.

(** X10. [valdiateBrowserType] answers chromium when no browser is named,
    returns each of the three engines for its own name, and returns nothing
    else: any other value, a string of another spelling or case included,
    ends the process with -1 after ['Invalid browser type.'] and the help. *)
Theorem valdiateBrowserType_accepts_the_three_engines :
  valdiateBrowserType JUndefined = Return chromium []
  ∧ (∀ b, valdiateBrowserType (JString (browserType_string b)) = Return b [])
  ∧ (∀ v b out, valdiateBrowserType v = Return b out →
       out = []
       ∧ (v = JUndefined ∧ b = chromium ∨ v = JString (browserType_string b)))
  ∧ (∀ v code out, valdiateBrowserType v = Exit code out →
       code = Some (-1) ∧ out = "Invalid browser type." :: help_lines).
Proof.
  split; [done|]. split; [by intros []|]. split.
  - intros v b out. destruct v as [| | | |s|]; simpl; try done.
    + intros [= <- <-]. split; [done|by left].
    + destruct (browserType_of_string s) as [b'|] eqn:E; [|done].
      intros [= <- <-]. split; [done|]. right.
      by rewrite (browserType_of_string_Some s b').
  - intros v code out. destruct v as [| | | |s|]; simpl; try done;
      try by intros [= <- <-].
    destruct (browserType_of_string s); [done|]. by intros [= <- <-].
Qed.

Lemma strings_of_all_strings (items : list JsValue) :
  forallb is_string items = true → items = JString <$> strings_of items.
Proof.
  induction items as [|v items IH]; [done|]. simpl.
  destruct v as [| | | |s|]; try done. simpl. intros H.
  change (strings_of (JString s :: items)) with (s :: strings_of items).
  simpl. f_equal. by apply IH.
Qed.

Lemma strings_of_strings (ps : list string) :
  forallb is_string (JString <$> ps) = true
  ∧ strings_of (JString <$> ps) = ps.
Proof.
  induction ps as [|p ps [IH1 IH2]]; [done|]. split; [exact IH1|].
  change (strings_of (JString <$> p :: ps))
    with (p :: strings_of (JString <$> ps)).
  by rewrite IH2.
Qed.


Section PathValidators.

Variable node : Node.

(** [validatePath] returns the resolved path, without a word, when a file
    (if [isFile]) or a folder (otherwise) exists there. *)
Lemma validatePath_return
    (loc : string) (isFile : option bool) (p : string) (out : list string) :
  validatePath node loc isFile = Return p out →
  out = [] ∧ p = path_resolve node loc
  ∧ (if default false isFile then fileExists node p
     else directoryExists node p) = true.
Proof.
  unfold validatePath.
  destruct (default false isFile);
    [destruct (fileExists node (path_resolve node loc)) eqn:E
    |destruct (directoryExists node (path_resolve node loc)) eqn:E];
    simpl; try done; by intros [= <- <-].
Qed.

(** Otherwise it ends the process with -1 after one line on the path,
    without the help. *)
Lemma validatePath_exit
    (loc : string) (isFile : option bool) (code : option Z)
    (out : list string) :
  validatePath node loc isFile = Exit code out →
  code = Some (-1)
  ∧ ∃ kind, out = ["'" +:+ path_resolve node loc
                    +:+ "' must be an existing " +:+ kind]
            ∧ (kind = "file." ∨ kind = "folder.").
Proof.
  unfold validatePath.
  destruct (default false isFile);
    [destruct (fileExists node (path_resolve node loc)) eqn:E
    |destruct (directoryExists node (path_resolve node loc)) eqn:E];
    simpl; try done; intros [= <- <-]; (split; [done|]).
  - exists "file.". split; [reflexivity|by left].
  - exists "folder.". split; [reflexivity|by right].
Qed.


Lemma validate_each_return
    (items : list JsValue) (res ps : list string) (out : list string) :
  validate_each node items res = Return ps out →
  out = []
  ∧ ps = res ++ (path_resolve node <$> leading_strings items)
  ∧ Forall (fun p => directoryExists node p = true)
      (path_resolve node <$> leading_strings items).
Proof.
  revert res out. induction items as [|v items IH]; intros res out.
  - simpl. intros [= <- <-]. by rewrite app_nil_r.
  - destruct v as [| | | |s|]; simpl;
      try (intros [= <- <-]; by rewrite app_nil_r).
    intros H. apply cli_bind_return in H as (p & o1 & o2 & Hp & H & ->).
    apply validatePath_return in Hp as (-> & -> & Hex). simpl in Hex.
    apply IH in H as (-> & -> & Hall).
    rewrite <- app_assoc. split; [done|]. split; [done|]. by constructor.
Qed.

Lemma validate_each_leading (items : list JsValue) (res : list string) :
  validate_each node items res
  = validate_each node (JString <$> leading_strings items) res.
Proof.
  revert res. induction items as [|v items IH]; intros res; [done|].
  destruct v as [| | | |s|]; try done. simpl.
  destruct (validatePath node s None) as [p o|code o]; [|done].
  simpl. by rewrite IH.
Qed.

Lemma validate_each_exit
    (items : list JsValue) (res : list string) (code : option Z)
    (out : list string) :
  validate_each node items res = Exit code out →
  code = Some (-1)
  ∧ ∃ loc, out = ["'" +:+ loc +:+ "' must be an existing folder."].
Proof.
  revert res out. induction items as [|v items IH]; intros res out; [done|].
  destruct v as [| | | |s|]; try done. simpl. intros H.
  apply cli_bind_exit in H as [H|(p & o1 & o2 & Hp & H & ->)].
  - unfold validatePath in H. simpl in H.
    destruct (directoryExists node (path_resolve node s)); [done|].
    simpl in H. injection H as <- <-. split; [done|]. by eexists.
  - apply validatePath_return in Hp as (-> & _). by apply IH in H.
Qed.


End PathValidators.



(** ** The quality *)

Ltac quality_cases quality version :=
  unfold js_truthy;
  destruct version as [| |[|]|nv|sv|]; cbn;
  try destruct (Z.eqb_spec nv 0) as [->|?%Z.eqb_neq]; cbn;
  try destruct (String.eqb_spec sv "") as [->|?%String.eqb_neq]; cbn;
  destruct quality as [| |[|]|nq|sq|]; cbn;
  try destruct (Z.eqb_spec nq 0) as [->|?%Z.eqb_neq]; cbn;
  try destruct (String.eqb_spec sq "") as [->|?%String.eqb_neq]; cbn;
  repeat match goal with
         | H : _ = false |- _ => progress rewrite H
         end;
  cbn.



(** ** [cliMain] *)

Section CliMain.

Variable node : Node.

Lemma validatePortNumber_nonnegative (v : JsValue) (n : Z) :
  validatePortNumber node v = Some n → 0 ≤ n.
Proof.
  unfold validatePortNumber. destruct v as [| | | |s|]; try done.
  destruct (parseInt node s) as [m|]; [|done].
  destruct (Z.leb_spec 0 m); [|done]. by intros [= <-].
Qed.

Lemma validatePathOrUndefined_return
    (options : gmap string JsValue) (name : string) (isFile : option bool)
    (r : option string) (out : list string) :
  validatePathOrUndefined node options name isFile = Return r out →
  path_option node options name (default false isFile) r.
Proof.
  unfold validatePathOrUndefined, validateStringOrUndefined, path_option.
  destruct (option_value options name) as [| | | |s|]; simpl; try done.
  - intros [= <- <-]. by left.
  - destruct (String.eqb_spec s "") as [->|Hs]; simpl.
    + intros [= <- <-]. right. by left.
    + destruct (validatePath node s isFile) as [p o|code o] eqn:E;
        simpl; [|done].
      apply validatePath_return in E as (-> & -> & Hex).
      intros [= <- <-]. right. right. exists s.
      by destruct (default false isFile).
Qed.

Lemma valdiateExtensionPaths_exist
    (v : JsValue) (ps : list string) (out : list string) :
  valdiateExtensionPaths node v = Return (Some ps) out →
  Forall (fun p => directoryExists node p = true) ps.
Proof.
  assert (∀ items, (res ← validate_each node items []; mret (Some res))
                   = Return (Some ps) out →
                   Forall (fun p => directoryExists node p = true) ps)
    as Hloop.
  { intros items H.
    apply cli_bind_return in H as (res & o1 & o2 & Hres & H & ->).
    injection H as <- <-.
    by apply validate_each_return in Hres as (_ & -> & Hall). }
  destruct v; try done; unfold valdiateExtensionPaths; apply Hloop.
Qed.

Lemma validateQuality_sources_none
    (quality version : JsValue) (dev : option string)
    (r : option VSCodeQuality) (out : list string) :
  truthy dev = true →
  validateQuality quality version dev = Return r out → r = None.
Proof.
  intros Hdev. unfold validateQuality, js_or_value. rewrite Hdev.
  quality_cases quality version; intros H; repeat case_match;
    by simplify_eq/=.
Qed.

(** What a [cliMain] that returns has gone through: each option is what
    its validator returned on the argument of its name. *)
Lemma cliMain_return
    (manifest : string) (args : gmap string JsValue) (inputs : list string)
    (entry : Entry) (out : list string) :
  cliMain node manifest args inputs = Return entry out →
  ∃ tests uri,
    (∃ o, valdiateBrowserType (option_value args "browserType")
          = Return (browserType (entry_options entry)) o)
    ∧ (∃ o, validatePathOrUndefined node args "extensionTestsPath"
              (Some true) = Return tests o)
    ∧ (∃ o, validatePathOrUndefined node args "extensionDevelopmentPath"
              None
            = Return (extensionDevelopmentPath (entry_options entry)) o)
    ∧ (∃ o, valdiateExtensionPaths node (option_value args "extensionPath")
            = Return (extensionPaths (entry_options entry)) o)
    ∧ (∃ o, validatePathOrUndefined node args "sourcesPath" None
            = Return (vsCodeDevPath (entry_options entry)) o)
    ∧ (∃ o, validateQuality (option_value args "quality")
              (option_value args "version")
              (vsCodeDevPath (entry_options entry))
            = Return (quality (entry_options entry)) o)
    ∧ (∃ o, validateBooleanOrUndefined args "open-devtools"
            = Return (devTools (entry_options entry)) o)
    ∧ (∃ o, validateBooleanOrUndefined args "headless"
            = Return (headless (entry_options entry)) o)
    ∧ (∃ o, valdiatePermissions (option_value args "permission")
            = Return (permissions (entry_options entry)) o)
    ∧ (∃ o, validateBooleanOrUndefined args "hideServerLog"
            = Return (hideServerLog (entry_options entry)) o)
    ∧ (∃ o, validateBooleanOrUndefined args "verbose"
            = Return (verbose (entry_options entry)) o)
    ∧ port (entry_options entry)
      = validatePortNumber node (option_value args "port")
    ∧ (∃ o, validateStringOrUndefined args "host"
            = Return (host (entry_options entry)) o)
    ∧ waitForDebugger (entry_options entry)
      = number_of node
          <$> validatePortNumber node (option_value args "waitForDebugger")
    ∧ (∃ o, validateStringOrUndefined args "folder-uri" = Return uri o)
    ∧ (inputs = [] ∧ folderPath (entry_options entry) = None
       ∧ folderUri (entry_options entry) = uri
       ∨ ∃ input rest p o,
           inputs = input :: rest
           ∧ validatePath node input None = Return p o
           ∧ folderPath (entry_options entry)
             = (if String.eqb p "" then None else Some p)
           ∧ folderUri (entry_options entry)
             = (if negb (String.eqb p "") && truthy uri
                then None else uri))
    ∧ version (entry_options entry) = None
    ∧ (truthy tests = true ∧ entry = RunTests (entry_options entry)
       ∧ extensionTestsPath (entry_options entry) = tests
       ∨ truthy tests = false ∧ entry = Open (entry_options entry)
         ∧ extensionTestsPath (entry_options entry) = None).
Proof.
  unfold cliMain. intros H.
  apply cli_bind_return in H as ([] & ? & ? & _ & H & ->).
  apply cli_bind_return in H as ([] & ? & ? & _ & H & ->).
  apply cli_bind_return in H as (bt & ? & ? & Hbt & H & ->).
  apply cli_bind_return in H as (tests & ? & ? & Htests & H & ->).
  apply cli_bind_return in H as (devp & ? & ? & Hdevp & H & ->).
  apply cli_bind_return in H as (eps & ? & ? & Heps & H & ->).
  apply cli_bind_return in H as (src & ? & ? & Hsrc & H & ->).
  apply cli_bind_return in H as (q & ? & ? & Hq & H & ->).
  apply cli_bind_return in H as (dt & ? & ? & Hdt & H & ->).
  apply cli_bind_return in H as (hl & ? & ? & Hhl & H & ->).
  apply cli_bind_return in H as (perms & ? & ? & Hperms & H & ->).
  apply cli_bind_return in H as (hide & ? & ? & Hhide & H & ->).
  apply cli_bind_return in H as (verb & ? & ? & Hverb & H & ->).
  apply cli_bind_return in H as (hst & ? & ? & Hhst & H & ->).
  apply cli_bind_return in H as (uri & ? & ? & Huri & H & ->).
  apply cli_bind_return in H as ([fp fu] & ? & ? & Hfolder & H & ->).
  assert (inputs = [] ∧ fp = None ∧ fu = uri
          ∨ ∃ input rest p o,
              inputs = input :: rest
              ∧ validatePath node input None = Return p o
              ∧ fp = (if String.eqb p "" then None else Some p)
              ∧ fu = (if negb (String.eqb p "") && truthy uri
                      then None else uri)) as Hfp.
  { destruct inputs as [|input rest].
    { left. by injection Hfolder as <- <-. }
    right.
    apply cli_bind_return in Hfolder as (p & o & ? & Hin & Hfolder & _).
    exists input, rest, p, o. split; [done|]. split; [done|].
    destruct (String.eqb p ""); simpl in *.
    { by injection Hfolder as <- <-. }
    destruct (truthy uri); simpl in Hfolder; by injection Hfolder as <- <-. }
  exists tests, uri.
  destruct (truthy tests) eqn:Et; injection H as <- _; simpl;
    (split; [by eexists|]); (split; [by eexists|]);
    (split; [by eexists|]); (split; [by eexists|]);
    (split; [by eexists|]); (split; [by eexists|]);
    (split; [by eexists|]); (split; [by eexists|]);
    (split; [by eexists|]); (split; [by eexists|]);
    (split; [by eexists|]); (split; [done|]);
    (split; [by eexists|]); (split; [done|]);
    (split; [by eexists|]); (split; [exact Hfp|]);
    (split; [done|]); [by left|by right].
Qed.

(** X15. When [cliMain] gets as far as its last statement, it calls
    [runTests] exactly when [--extensionTestsPath] is a string that
    resolves to a non-empty path, with that resolved path, an existing
    file, as test path; in every other case it calls [open], without any
    test path.  The options it passes are the validated arguments: no
    [version]; as folder path the first input, resolved, an existing
    folder, and then no non-empty folder URI beside it; as development and
    sources paths the arguments of these names, resolved to existing
    folders, or the unchecked empty string; as extension paths existing
    folders; as ports what [validatePortNumber] made of [--port] and
    [--waitForDebugger], never a negative number; and for every other
    option what its validator returned on the argument of its name. *)
Theorem cliMain_passes_validated_options
    (manifest : string) (args : gmap string JsValue) (inputs : list string)
    (entry : Entry) (out : list string) :
  cliMain node manifest args inputs = Return entry out →
  ((∃ s, option_value args "extensionTestsPath" = JString s
         ∧ entry = RunTests (entry_options entry)
         ∧ extensionTestsPath (entry_options entry)
           = Some (path_resolve node s)
         ∧ path_resolve node s ≠ ""
         ∧ fileExists node (path_resolve node s) = true)
   ∨ (entry = Open (entry_options entry)
      ∧ extensionTestsPath (entry_options entry) = None
      ∧ (option_value args "extensionTestsPath" = JUndefined
         ∨ ∃ s, option_value args "extensionTestsPath" = JString s
                ∧ (s = "" ∨ path_resolve node s = ""))))
  ∧ version (entry_options entry) = None
  ∧ match inputs with
    | [] => folderPath (entry_options entry) = None
    | input :: _ =>
        directoryExists node (path_resolve node input) = true
        ∧ folderPath (entry_options entry)
          = (if String.eqb (path_resolve node input) "" then None
             else Some (path_resolve node input))
    end
  ∧ (∃ uri o, validateStringOrUndefined args "folder-uri" = Return uri o
              ∧ folderUri (entry_options entry)
                = (if bool_decide (is_Some (folderPath (entry_options entry)))
                      && truthy uri
                   then None else uri))
  ∧ path_option node args "extensionDevelopmentPath" false
      (extensionDevelopmentPath (entry_options entry))
  ∧ path_option node args "sourcesPath" false
      (vsCodeDevPath (entry_options entry))
  ∧ (∃ o, valdiateExtensionPaths node (option_value args "extensionPath")
          = Return (extensionPaths (entry_options entry)) o)
  ∧ (∀ ps, extensionPaths (entry_options entry) = Some ps →
       Forall (fun p => directoryExists node p = true) ps)
  ∧ port (entry_options entry)
    = validatePortNumber node (option_value args "port")
  ∧ (∀ n, port (entry_options entry) = Some n → 0 ≤ n)
  ∧ waitForDebugger (entry_options entry)
    = number_of node
        <$> validatePortNumber node (option_value args "waitForDebugger")
  ∧ (∃ o, valdiateBrowserType (option_value args "browserType")
          = Return (browserType (entry_options entry)) o)
  ∧ (∃ o, validateQuality (option_value args "quality")
            (option_value args "version")
            (vsCodeDevPath (entry_options entry))
          = Return (quality (entry_options entry)) o)
  ∧ (∃ o, valdiatePermissions (option_value args "permission")
          = Return (permissions (entry_options entry)) o)
  ∧ (∃ o, validateStringOrUndefined args "host"
          = Return (host (entry_options entry)) o)
  ∧ (∃ o, validateBooleanOrUndefined args "open-devtools"
          = Return (devTools (entry_options entry)) o)
  ∧ (∃ o, validateBooleanOrUndefined args "headless"
          = Return (headless (entry_options entry)) o)
  ∧ (∃ o, validateBooleanOrUndefined args "hideServerLog"
          = Return (hideServerLog (entry_options entry)) o)
  ∧ (∃ o, validateBooleanOrUndefined args "verbose"
          = Return (verbose (entry_options entry)) o).
Proof.
  intros H. apply cliMain_return in H
    as (tests & uri & Hbt & [o1 Htests] & [o2 Hdevp] & Heps & [o4 Hsrc] & Hq
        & Hdt & Hhl & Hperms & Hhide & Hverb & Hport & Hhst & Hwait
        & [ou Huri] & Hfolder & Hversion & Hentry).
  apply validatePathOrUndefined_return in Htests, Hdevp, Hsrc.
  simpl in Htests, Hdevp, Hsrc.
  split; [|split; [done|]].
  { destruct Hentry as [(Ht & He & Hx)|(Ht & He & Hx)].
    - left. destruct Htests as [[_ ->]|[[_ ->]|(s & Hs & _ & -> & Hex)]];
        try done.
      exists s. simpl in Ht.
      destruct (String.eqb_spec (path_resolve node s) ""); [done|]. done.
    - right. split; [done|]. split; [done|].
      destruct Htests as [[Hu _]|[[Hs _]|(s & Hs & _ & -> & Hex)]].
      + by left.
      + right. exists "". split; [done|by left].
      + right. exists s. split; [done|]. right. simpl in Ht.
        by destruct (String.eqb_spec (path_resolve node s) ""). }
  split.
  { destruct Hfolder as [(-> & Hfp & _)|(input & rest & p & o & -> & Hin
                                          & Hfp & _)]; [done|].
    by apply validatePath_return in Hin as (_ & -> & Hex). }
  split.
  { exists uri, ou. split; [done|].
    destruct Hfolder as [(_ & -> & ->)|(input & rest & p & o & _ & _
                                          & -> & ->)]; [done|].
    by destruct (String.eqb p ""). }
  split; [done|]. split; [done|]. split; [done|]. split.
  { intros ps Hps. destruct Heps as [o Heps]. rewrite Hps in Heps.
    by eapply valdiateExtensionPaths_exist. }
  split; [done|]. split.
  { rewrite Hport. apply validatePortNumber_nonnegative. }
  split; [done|]. split; [done|]. split; [done|]. split; [done|].
  split; [done|]. split; [done|]. split; [done|]. split; [done|]. done.
Qed.

(** X16. With a sources path that resolves to an existing folder, the
    options [cliMain] passes have no quality, whatever [--quality] and
    [--version] say, and the session served from them takes the sources at
    the resolved path and downloads nothing. *)
Theorem cliMain_sources_need_no_download
    (manifest : string) (args : gmap string JsValue) (inputs : list string)
    (entry : Entry) (out : list string) (s : string) :
  cliMain node manifest args inputs = Return entry out →
  option_value args "sourcesPath" = JString s →
  s ≠ "" → path_resolve node s ≠ "" →
  directoryExists node (path_resolve node s) = true
  ∧ quality (entry_options entry) = None
  ∧ ∀ env w,
      getBuild env (entry_options entry) w
      = (Normal (Sources (path_resolve node s)), w).
Proof.
  intros H Hs Hne Hres. apply cliMain_return in H
    as (tests & uri & _ & _ & _ & _ & [o4 Hsrc] & [o5 Hq] & _).
  apply validatePathOrUndefined_return in Hsrc.
  destruct Hsrc as [[Hu _]|[[Hu _]|(s' & Hs' & _ & Hdev & Hex)]];
    [congruence|congruence|].
  assert (s' = s) as -> by congruence. simpl in Hex.
  assert (truthy (Some (path_resolve node s)) = true) as Ht.
  { simpl. by destruct (String.eqb_spec (path_resolve node s) ""). }
  rewrite Hdev in Hq.
  apply (validateQuality_sources_none _ _ _ _ _ Ht) in Hq.
  split; [done|]. split; [done|].
  intros env w. unfold getBuild. by rewrite Hdev, Ht.
Qed.

Lemma exits_with_failure_bind {A B} (m : Cli A) (k : A -> Cli B) :
  exits_with_failure m → (∀ a, exits_with_failure (k a)) →
  exits_with_failure (m ≫= k).
Proof.
  intros Hm Hk code out H.
  apply cli_bind_exit in H as [H|(a & o1 & o2 & _ & H & _)].
  - by eapply Hm.
  - by eapply Hk.
Qed.

Lemma exits_with_failure_ret {A} (a : A) (out : list string) :
  exits_with_failure (Return a out).
Proof. by intros code out'. Qed.

Lemma exits_validateStringOrUndefined
    (options : gmap string JsValue) (name : string) :
  exits_with_failure (validateStringOrUndefined options name).
Proof.
  intros code out. unfold validateStringOrUndefined.
  destruct (option_value options name); simpl; try done;
    by intros [= <- <-].
Qed.

Lemma exits_validateBooleanOrUndefined
    (options : gmap string JsValue) (name : string) :
  exits_with_failure (validateBooleanOrUndefined options name).
Proof.
  intros code out. unfold validateBooleanOrUndefined.
  destruct (option_value options name); simpl; try done;
    by intros [= <- <-].
Qed.

Lemma exits_valdiateBrowserType (v : JsValue) :
  exits_with_failure (valdiateBrowserType v).
Proof.
  intros code out. destruct v as [| | | |s|]; simpl; try done;
    try by intros [= <- <-].
  destruct (browserType_of_string s); [done|]. by intros [= <- <-].
Qed.

Lemma exits_valdiatePermissions (v : JsValue) :
  exits_with_failure (valdiatePermissions v).
Proof.
  intros code out. destruct v as [| | | |p|items]; simpl; try done;
    try by intros [= <- <-].
  destruct (forallb is_string items); [done|]. by intros [= <- <-].
Qed.

Lemma exits_validatePath (loc : string) (isFile : option bool) :
  exits_with_failure (validatePath node loc isFile).
Proof. intros code out H. by apply validatePath_exit in H as [-> _]. Qed.

Lemma exits_validatePathOrUndefined
    (options : gmap string JsValue) (name : string) (isFile : option bool) :
  exits_with_failure (validatePathOrUndefined node options name isFile).
Proof.
  unfold validatePathOrUndefined. apply exits_with_failure_bind.
  - apply exits_validateStringOrUndefined.
  - intros loc. destruct (truthy loc); [|apply exits_with_failure_ret].
    apply exits_with_failure_bind; [apply exits_validatePath|].
    intros p. apply exits_with_failure_ret.
Qed.

Lemma exits_valdiateExtensionPaths (v : JsValue) :
  exits_with_failure (valdiateExtensionPaths node v).
Proof.
  assert (∀ items,
            exits_with_failure
              (res ← validate_each node items []; mret (Some res))) as Hloop.
  { intros items. apply exits_with_failure_bind.
    - intros code out H. by apply validate_each_exit in H as [-> _].
    - intros res. apply exits_with_failure_ret. }
  destruct v; try apply Hloop. unfold valdiateExtensionPaths.
  apply exits_with_failure_ret.
Qed.

Lemma exits_validateQuality
    (quality version : JsValue) (dev : option string) :
  exits_with_failure (validateQuality quality version dev).
Proof.
  intros code out. unfold validateQuality, js_or_value. destruct (truthy dev);
    quality_cases quality version; intros H; repeat case_match;
    by simplify_eq/=.
Qed.

(** X17. [cliMain] writes the manifest line first.  Once the arguments are
    parsed (an unknown argument ends the process before, in the callback of
    the parser), asked for help it writes the help and ends the process
    without an exit code, before any option is validated; in every other
    case in which it ends the process, the exit code is -1. *)
Theorem cliMain_exit_codes
    (manifest : string) (args : gmap string JsValue) (inputs : list string) :
  (js_truthy (option_value args "help") = true →
   cliMain node manifest args inputs = Exit None (manifest :: help_lines))
  ∧ (∀ code out, cliMain node manifest args inputs = Exit code out →
       js_truthy (option_value args "help") = false → code = Some (-1))
  ∧ ∃ rest, output (cliMain node manifest args inputs) = manifest :: rest.
Proof.
  split; [|split].
  - intros Hhelp. unfold cliMain. rewrite Hhelp. reflexivity.
  - intros code out H Hhelp. revert H. unfold cliMain. rewrite Hhelp.
    intros H.
    apply cli_bind_exit in H as [H|([] & o1 & o2 & _ & H & _)]; [done|].
    apply cli_bind_exit in H as [H|([] & o3 & o4 & _ & H & _)]; [done|].
    match type of H with ?m = _ =>
      assert (exits_with_failure m) as Hm; [clear H|by eapply Hm] end.
    repeat (apply exits_with_failure_bind;
            [first [ apply exits_valdiateBrowserType
                   | apply exits_validatePathOrUndefined
                   | apply exits_valdiateExtensionPaths
                   | apply exits_validateQuality
                   | apply exits_validateBooleanOrUndefined
                   | apply exits_valdiatePermissions
                   | apply exits_validateStringOrUndefined ]
            |intros ?]).
    apply exits_with_failure_bind; [|intros ?].
    + destruct inputs as [|input rest]; [apply exits_with_failure_ret|].
      apply exits_with_failure_bind; [apply exits_validatePath|].
      intros p. destruct (negb _); [|apply exits_with_failure_ret].
      destruct (truthy _); apply exits_with_failure_ret.
    + match goal with a : (option string * option string)%type |- _ =>
        destruct a end.
      destruct (truthy _); apply exits_with_failure_ret.
  - unfold cliMain.
    match goal with |- context [console_log manifest ≫= ?k] =>
      generalize k end.
    intros k. unfold mbind, cli_bind, console_log.
    destruct (k tt) as [a o|code o]; by exists o.
Qed.

End CliMain.

(** [--extensionTestsPath out/test/index.js --extensionDevelopmentPath ext
     --port 8080 --folder-uri vscode-vfs://x folder]: tests are run on the
    folder, and the folder URI is dropped. *)
Lemma cliMain_passes_validated_options_witness :
  ∃ options out,
    cliMain node_test "vscode-test-web" args_test ["folder"]
    = Return (RunTests options) out
    ∧ extensionTestsPath options = Some "/work/out/test/index.js"
    ∧ folderPath options = Some "/work/folder"
    ∧ folderUri options = None
    ∧ port options = Some 8080
    ∧ version options = None.
Proof.
  eexists _, _. split; [vm_compute; reflexivity|].
  pose proof (cliMain_passes_validated_options node_test "vscode-test-web"
                args_test ["folder"] _ _ eq_refl) as (_ & Hversion & _).
  do 4 (split; [reflexivity|]). exact Hversion.
Defined.

(** [--sourcesPath /src/vscode --quality nightly --port=-1] *)
Lemma cliMain_sources_need_no_download_witness :
  ∃ options out,
    cliMain node_test "vscode-test-web" args_sources []
    = Return (Open options) out
    ∧ port options = None
    ∧ getBuild env_ok options initial
      = (Normal (Sources "/src/vscode"), initial).
Proof.
  eexists _, _. split; [vm_compute; reflexivity|]. split; [reflexivity|].
  pose proof (cliMain_sources_need_no_download node_test "vscode-test-web"
                args_sources [] _ _ "/src/vscode" eq_refl eq_refl)
    as H.
  apply H; vm_compute; discriminate.
Defined.

(** [--help --browserType lynx]: the help wins over the bad option. *)
Lemma cliMain_exit_codes_witness :
  cliMain node_test "vscode-test-web"
    (<["help" := JBoolean true]> (<["browserType" := JString "lynx"]> ∅)) []
  = Exit None ("vscode-test-web" :: help_lines)
  ∧ ∃ out, cliMain node_test "vscode-test-web"
             (<["browserType" := JString "lynx"]> ∅) []
           = Exit (Some (-1)) out.
Proof.
  split.
  - apply (cliMain_exit_codes node_test). reflexivity.
  - eexists. vm_compute. reflexivity.
Defined.
